(** * AlibabaSearch: the marketplace scraper of [alibaba_scraper.py]

    A shallow embedding of the class [AlibabaScraper] and of the properties
    its specification states about it.

    The scraper drives a browser through Playwright.  The browser is not part
    of the program: it is modelled as a [Driver], a record of state-passing
    operations over an abstract world, each of which either returns a value or
    raises.  The methods of the scraper are written in a small monad that
    threads the driver's world, the local variables of the running method and
    a log of what the method did (driver calls and printed messages), and in
    which [try]/[except]/[finally] have their Python meaning. *)

From Stdlib Require Import String Ascii List Bool Arith NArith Lia.
From stdpp Require Import gmap strings list fin_maps.

Local Open Scope string_scope.

(** ** Strings as Python uses them *)

(** [s.startswith(p)] *)
Definition startswith (s p : string) : bool := String.prefix p s.

(** [s.split('/')[-1]]: what follows the last slash (all of [s] when it has
    none).  [seg] is the segment read since the last slash. *)
Fixpoint last_segment_from (seg s : string) : string :=
  match s with
  | EmptyString => seg
  | String c s' =>
      if Ascii.eqb c "/"%char then last_segment_from EmptyString s'
      else last_segment_from (seg +:+ String c EmptyString) s'
  end.

Definition last_segment (s : string) : string := last_segment_from EmptyString s.

(** ** Python values and records *)

(** The values a product record holds: [None], a string, a list of strings. *)
Inductive pyval : Type :=
| PyNone
| PyStr (s : string)
| PyList (l : list string).

(** [text_content] and [get_attribute] return [Optional[str]]. *)
Definition of_optional (o : option string) : pyval :=
  match o with
  | Some s => PyStr s
  | None => PyNone
  end.

(** A product record is a Python [dict] with string keys. *)
Abbreviation record := (gmap string pyval).

(** [d.update(e)]: the keys of [e] win. *)
Definition update (d e : record) : record := e ∪ d.

(** Exceptions.  All of them derive from Python's [Exception], which is
    what the [except] clauses of the scraper catch; cancellation and the other
    [BaseException]s are not modelled. *)
Inductive exn : Type :=
| RuntimeError (msg : string)
| PlaywrightError (msg : string)
| PlaywrightTimeout (msg : string).

Inductive outcome (A : Type) : Type :=
| Ret (a : A)
| Raise (e : exn).
Arguments Ret {A} a.
Arguments Raise {A} e.

Definition is_ret {A} (r : outcome A) : bool :=
  match r with Ret _ => true | Raise _ => false end.

(** ** URL normalisation (lines 154-163 of [_parse_search_results]) *)

Definition site_origin : string := "https://www.alibaba.com".

(** Lines 158-159. *)
Definition normalize_url (product_url : string) : string :=
  if startswith product_url "//" then "https:" +:+ product_url
  else if startswith product_url "/" then site_origin +:+ product_url
  else product_url.

(** What lines 154-163 decide about a link attribute: [None] when the item is
    skipped, the normalised URL when it is kept. *)
Definition accepted_url (href : option string) : option string :=
  match href with
  | None => None
  | Some s =>
      if String.eqb s "" then None
      else
        let product_url := normalize_url s in
        if negb (startswith product_url "http") then None
        else Some product_url
  end.

(** An absolute address with an HTTP or HTTPS scheme. *)
Definition absolute_http (s : string) : bool :=
  startswith s "http://" || startswith s "https://".

(** The literal [self.selectors] of [__init__]. *)
Definition selectors : gmap string string :=
  list_to_map
    [ ("popup_consent_button", "button:has-text('Consent')");
      ("popup_close_button", "div.dialog-close-btn");
      ("image_search_camera_icon", "svg.icon-camera");
      ("text_search_bar", "input.search-bar-input");
      ("text_search_button", "button.search-bar-button");
      ("product_item", "div.product-item-selector");
      ("product_title", "h2.title-selector");
      ("product_company_summary", "div.company-summary-selector");
      ("product_link", "a.product-link-selector");
      ("product_detail_full_description", "div.full-description-selector");
      ("product_detail_images", "img.detail-image-selector");
      ("product_detail_price", "span.price-selector");
      ("product_detail_company_years", "span.company-years-selector");
      ("product_detail_verified_status", "span.verified-tag-selector") ].

(** [self.selectors[name]]; every name the methods use is a key of the
    literal, so the lookup never raises [KeyError]. *)
Definition selector (name : string) : string := default "" (selectors !! name).

(** ** The browser driver *)

(** Playwright as the scraper sees it.  Every awaited call takes the world to
    a new world and returns or raises; [browser_contexts] is the property
    [browser.contexts], a plain read.  Timeouts are in milliseconds. *)
Record Driver : Type := {
  World : Type;
  Browser : Type;
  Context : Type;
  Page : Type;
  Locator : Type;
  FileChooser : Type;
  browser_new_page : Browser -> World -> outcome Page * World;
  browser_contexts : Browser -> World -> list Context;
  context_new_page : Context -> World -> outcome Page * World;
  (* page.goto(url, wait_until=.., timeout=..) *)
  page_goto : Page -> string -> string -> N -> World -> outcome unit * World;
  (* page.is_visible(selector, timeout=..) *)
  page_is_visible : Page -> string -> N -> World -> outcome bool * World;
  (* page.click(selector) *)
  page_click : Page -> string -> World -> outcome unit * World;
  (* page.content() *)
  page_content : Page -> World -> outcome string * World;
  (* page.screenshot(path=..) *)
  page_screenshot : Page -> string -> World -> outcome unit * World;
  (* page.close() *)
  page_close : Page -> World -> outcome unit * World;
  (* page.wait_for_selector(selector, timeout=..) *)
  page_wait_for_selector : Page -> string -> N -> World -> outcome unit * World;
  (* page.wait_for_timeout(ms) *)
  page_wait_for_timeout : Page -> N -> World -> outcome unit * World;
  (* page.locator(selector).all() *)
  page_locator_all : Page -> string -> World -> outcome (list Locator) * World;
  (* page.locator(selector).fill(text, timeout=..) *)
  page_locator_fill : Page -> string -> string -> N -> World -> outcome unit * World;
  (* page.locator(selector).click(timeout=..) *)
  page_locator_click : Page -> string -> N -> World -> outcome unit * World;
  (* leaving [async with page.expect_file_chooser(timeout=..)] and reading
     [fc_info.value]: the chooser the click opened *)
  page_expect_file_chooser : Page -> N -> World -> outcome FileChooser * World;
  (* file_chooser.set_files(path) *)
  file_chooser_set_files : FileChooser -> string -> World -> outcome unit * World;
  (* item.locator(selector).text_content(timeout=..) *)
  locator_text_content : Locator -> string -> N -> World -> outcome (option string) * World;
  (* item.locator(selector).get_attribute(name, timeout=..) *)
  locator_get_attribute :
    Locator -> string -> string -> N -> World -> outcome (option string) * World
}.

(** The scraper object: [self.headless] and [self._browser] ([None] until the
    scraper is entered). *)
Record AlibabaScraper (D : Driver) : Type := {
  headless : bool;
  _browser : option (Browser D)
}.
Arguments headless {D} _.
Arguments _browser {D} _.

Section Scraper.

Context {D : Driver}.

(** *** What a method does: driver calls and printed messages *)

Inductive call : Type :=
| CBrowserNewPage
| CContextNewPage (c : Context D)
| CGoto (p : Page D) (url : string)
| CIsVisible (p : Page D) (sel : string)
| CClick (p : Page D) (sel : string)
| CContent (p : Page D)
| CScreenshot (p : Page D) (path : string)
| CClose (p : Page D)
| CWaitForSelector (p : Page D) (sel : string)
| CWaitForTimeout (p : Page D) (ms : N)
| CLocatorAll (p : Page D) (sel : string)
| CFill (p : Page D) (sel text : string)
| CLocatorClick (p : Page D) (sel : string)
| CExpectFileChooser (p : Page D)
| CSetFiles (fc : FileChooser D) (path : string)
| CTextContent (l : Locator D) (sel : string)
| CGetAttribute (l : Locator D) (sel name : string).

(** One constructor for each [print] of the source, with the values its
    f-string interpolates. *)
Inductive message : Type :=
| MsgClickedConsent
| MsgClickedClose
| MsgNoPopup (e : exn)
| MsgNavigatingDetail (product_url : string)
| MsgExtractedDetails (product_url : string)
| MsgErrorDetails (product_url : string) (e : exn)
| MsgNoItems (e : exn)
| MsgFound (n : nat)
| MsgLimit
| MsgNoUrl (item : nat)
| MsgInvalidUrl (item : nat) (product_url : string)
| MsgNoContext
| MsgProcessed (item : nat) (title : option string)
| MsgItemError (item : nat) (e : exn)
| MsgLookingCamera (sel : string)
| MsgImageSet (image_path : string)
| MsgWaitingImage
| MsgParsingImage
| MsgImageError (e : exn)
| MsgTyping (search_query sel : string)
| MsgClicking (sel : string)
| MsgWaitingText
| MsgSmartSearchNote
| MsgParsingText
| MsgTextError (e : exn).

(** A driver call is logged with whether it returned ([true]) or raised. *)
Inductive event : Type :=
| EvCall (c : call) (ok : bool)
| EvPrint (m : message).

(** *** The monad of methods *)

(** The state of a running method: its local variables, the driver's world
    and the log so far (oldest event first). *)
Record frame (L : Type) : Type := Frame {
  locals : L;
  world : World D;
  trace : list event
}.
Arguments Frame {L} _ _ _.
Arguments locals {L} _.
Arguments world {L} _.
Arguments trace {L} _.

Definition M (L A : Type) : Type := frame L -> outcome A * frame L.

Definition ret {L A} (a : A) : M L A := fun f => (Ret a, f).

Definition bind {L A B} (m : M L A) (k : A -> M L B) : M L B :=
  fun f =>
    match m f with
    | (Ret a, f') => k a f'
    | (Raise e, f') => (Raise e, f')
    end.

(** [try: body except Exception as e: handler e].  What [body] did to the
    state before it raised stays done. *)
Definition try_except {L A} (body : M L A) (handler : exn -> M L A) : M L A :=
  fun f =>
    match body f with
    | (Ret a, f') => (Ret a, f')
    | (Raise e, f') => handler e f'
    end.

(** [try: body finally: final].  [final] runs on every exit of [body]; the
    outcome of [body] stands unless [final] itself raises. *)
Definition try_finally {L A} (body : M L A) (final : M L unit) : M L A :=
  fun f =>
    let '(r, f') := body f in
    match final f' with
    | (Ret _, f'') => (r, f'')
    | (Raise e, f'') => (Raise e, f'')
    end.

Definition get_locals {L} : M L L := fun f => (Ret (locals f), f).

Definition set_locals {L} (l : L) : M L unit :=
  fun f => (Ret tt, Frame l (world f) (trace f)).

Definition log {L} (ev : event) : M L unit :=
  fun f => (Ret tt, Frame (locals f) (world f) (trace f ++ [ev])%list).

Definition print {L} (m : message) : M L unit := log (EvPrint m).

(** An awaited driver call. *)
Definition invoke {L A} (c : call) (op : World D -> outcome A * World D) : M L A :=
  fun f =>
    let '(r, w) := op (world f) in
    (r, Frame (locals f) w (trace f ++ [EvCall c (is_ret r)])%list).

(** A call of another method: it runs on locals of its own, [l0] at entry. *)
Definition call_method {L L' A} (l0 : L') (m : M L' A) : M L A :=
  fun f =>
    let '(r, f') := m (Frame l0 (world f) (trace f)) in
    (r, Frame (locals f) (world f') (trace f')).

Definition raise {L A} (e : exn) : M L A := fun f => (Raise e, f).

(** A read of the driver's world that is not a call ([browser.contexts]). *)
Definition read {L A} (g : World D -> A) : M L A := fun f => (Ret (g (world f)), f).

Declare Scope method_scope.
Delimit Scope method_scope with method.
Notation "x <- m ;; k" := (bind m (fun x => k))
  (at level 100, m at next level, k at level 200, right associativity) : method_scope.
Notation "m ;; k" := (bind m (fun _ => k))
  (at level 100, k at level 200, right associativity) : method_scope.
Local Open Scope method_scope.

(** *** The driver calls the methods make *)

Definition goto {L} (p : Page D) (url wait_until : string) (timeout : N) : M L unit :=
  invoke (CGoto p url) (page_goto D p url wait_until timeout).
Definition is_visible {L} (p : Page D) (sel : string) (timeout : N) : M L bool :=
  invoke (CIsVisible p sel) (page_is_visible D p sel timeout).
Definition click {L} (p : Page D) (sel : string) : M L unit :=
  invoke (CClick p sel) (page_click D p sel).
Definition content {L} (p : Page D) : M L string :=
  invoke (CContent p) (page_content D p).
Definition screenshot {L} (p : Page D) (path : string) : M L unit :=
  invoke (CScreenshot p path) (page_screenshot D p path).
Definition close {L} (p : Page D) : M L unit :=
  invoke (CClose p) (page_close D p).
Definition wait_for_selector {L} (p : Page D) (sel : string) (timeout : N) : M L unit :=
  invoke (CWaitForSelector p sel) (page_wait_for_selector D p sel timeout).
Definition wait_for_timeout {L} (p : Page D) (ms : N) : M L unit :=
  invoke (CWaitForTimeout p ms) (page_wait_for_timeout D p ms).
Definition locator_all {L} (p : Page D) (sel : string) : M L (list (Locator D)) :=
  invoke (CLocatorAll p sel) (page_locator_all D p sel).
Definition locator_fill {L} (p : Page D) (sel text : string) (timeout : N) : M L unit :=
  invoke (CFill p sel text) (page_locator_fill D p sel text timeout).
Definition locator_click {L} (p : Page D) (sel : string) (timeout : N) : M L unit :=
  invoke (CLocatorClick p sel) (page_locator_click D p sel timeout).
Definition expect_file_chooser {L} (p : Page D) (timeout : N) : M L (FileChooser D) :=
  invoke (CExpectFileChooser p) (page_expect_file_chooser D p timeout).
Definition set_files {L} (fc : FileChooser D) (path : string) : M L unit :=
  invoke (CSetFiles fc path) (file_chooser_set_files D fc path).
Definition text_content {L} (l : Locator D) (sel : string) (timeout : N)
  : M L (option string) :=
  invoke (CTextContent l sel) (locator_text_content D l sel timeout).
Definition get_attribute {L} (l : Locator D) (sel name : string) (timeout : N)
  : M L (option string) :=
  invoke (CGetAttribute l sel name) (locator_get_attribute D l sel name timeout).

(** *** [_get_new_page] (lines 63-66) *)

Definition _get_new_page {L} (self : AlibabaScraper D) : M L (Page D) :=
  match _browser self with
  | None =>
      raise (RuntimeError
               "Browser not initialized. Use 'async with AlibabaScraper() as scraper:'.")
  | Some browser => invoke CBrowserNewPage (browser_new_page D browser)
  end.

(** *** [_close_initial_popups] (lines 68-82) *)

Definition _close_initial_popups (self : AlibabaScraper D) (page : Page D) : M unit unit :=
  try_except
    (let consent_button_sel := selector "popup_consent_button" in
     let close_button_sel := selector "popup_close_button" in
     consent <- is_visible page consent_button_sel 2000;;
     if (consent : bool) then
       click page consent_button_sel;;
       print MsgClickedConsent
     else
       closing <- is_visible page close_button_sel 2000;;
       if (closing : bool) then
         click page close_button_sel;;
         print MsgClickedClose
       else ret tt)
    (fun e => print (MsgNoPopup e)).

(** *** [_extract_product_details_from_product_page] (lines 84-123) *)

(** The two local variables the [except] and [finally] clauses read.
    [if product_page:] asks whether the page was opened: a page object is
    truthy, [None] is not. *)
Record details_locals : Type := DetailsLocals {
  product_page : option (Page D);
  details : record
}.

(** The dict literal of lines 90-94. *)
Definition initial_details (product_url : string) : record :=
  <["url" := PyStr product_url]>
  (<["full_description" := PyStr "N/A"]>
  (<["images" := PyList []]>
  (<["html_content" := PyStr "N/A"]>
  (<["price_per_unit" := PyStr "N/A"]>
  (<["company_years" := PyStr "N/A"]>
  (<["verified_supplier" := PyStr "N/A"]> ∅)))))).

(** The path of the screenshot of line 119. *)
Definition error_product_page_path (product_url : string) : string :=
  "error_product_page_" +:+ last_segment product_url +:+ ".png".

(** The [try] block (lines 96-114). *)
Definition extract_details_try
    (self : AlibabaScraper D) (product_url : string) (context : Context D)
  : M details_locals unit :=
  page <- invoke (CContextNewPage context) (context_new_page D context);;
  l <- get_locals;;
  set_locals (DetailsLocals (Some page) (details l));;
  print (MsgNavigatingDetail product_url);;
  goto page product_url "domcontentloaded" 30000;;
  call_method tt (_close_initial_popups self page);;
  html <- content page;;
  l <- get_locals;;
  set_locals (DetailsLocals (product_page l)
                (<["html_content" := PyStr html]> (details l)));;
  print (MsgExtractedDetails product_url).

(** The [except] clause (lines 116-119). *)
Definition extract_details_except (product_url : string) (e : exn)
  : M details_locals unit :=
  print (MsgErrorDetails product_url e);;
  l <- get_locals;;
  match product_page l with
  | Some page => screenshot page (error_product_page_path product_url)
  | None => ret tt
  end.

(** The [finally] clause (lines 120-122). *)
Definition extract_details_finally : M details_locals unit :=
  l <- get_locals;;
  match product_page l with
  | Some page => close page
  | None => ret tt
  end.

Definition _extract_product_details_from_product_page
    (self : AlibabaScraper D) (product_url : string) (context : Context D)
  : M details_locals record :=
  set_locals (DetailsLocals None (initial_details product_url));;
  try_finally
    (try_except
       (extract_details_try self product_url context)
       (extract_details_except product_url))
    extract_details_finally;;
  l <- get_locals;;
  ret (details l).

(** *** [_parse_search_results] (lines 125-190) *)

(** The dict literal of lines 166-173. *)
Definition product_summary_of (title company_summary : option string)
    (product_url : string) : record :=
  <["title" := of_optional title]>
  (<["company_summary" := of_optional company_summary]>
  (<["product_page_url" := PyStr product_url]>
  (<["full_description" := PyStr "N/A"]>
  (<["images" := PyList []]>
  (<["html_content" := PyStr "N/A"]>
  (<["price_per_unit" := PyStr "N/A"]>
  (<["company_years" := PyStr "N/A"]>
  (<["verified_supplier" := PyStr "N/A"]> ∅)))))))).

(** [products_data.append(r)]; [products_data] is the method's local. *)
Definition append_product (r : record) : M (list record) unit :=
  products_data <- get_locals;;
  set_locals (products_data ++ [r])%list.

(** The [try] block of the loop body (lines 149-183) for the item of index
    [i].  A [continue] ends the block where it stands. *)
Definition process_item_try (self : AlibabaScraper D) (i : nat) (item_locator : Locator D)
  : M (list record) unit :=
  title <- text_content item_locator (selector "product_title") 3000;;
  company_summary <-
    text_content item_locator (selector "product_company_summary") 3000;;
  product_url <- get_attribute item_locator (selector "product_link") "href" 3000;;
  match product_url with
  | None => print (MsgNoUrl (i + 1))
  | Some product_url =>
    if String.eqb product_url "" then print (MsgNoUrl (i + 1))
    else
      let product_url := normalize_url product_url in
      if negb (startswith product_url "http") then
        print (MsgInvalidUrl (i + 1) product_url)
      else
        let product_summary := product_summary_of title company_summary product_url in
        product_summary <-
          match _browser self with
          | None => print MsgNoContext;; ret product_summary
          | Some browser =>
              contexts <- read (browser_contexts D browser);;
              match contexts with
              | [] => print MsgNoContext;; ret product_summary
              | context0 :: _ =>
                  full_details <-
                    call_method (DetailsLocals None ∅)
                      (_extract_product_details_from_product_page
                         self product_url context0);;
                  ret (update product_summary full_details)
              end
          end;;
        append_product product_summary;;
        print (MsgProcessed (i + 1) title)
  end.

(** The body of the loop: the [try] block and its [except] clause
    (lines 185-186). *)
Definition process_item (self : AlibabaScraper D) (i : nat) (item_locator : Locator D)
  : M (list record) unit :=
  try_except
    (process_item_try self i item_locator)
    (fun e => print (MsgItemError (i + 1) e)).

(** The [for] loop of lines 144-188 from index [i] on; [i >= 5] breaks. *)
Fixpoint for_items (self : AlibabaScraper D) (i : nat) (product_elements : list (Locator D))
  : M (list record) unit :=
  match product_elements with
  | [] => ret tt
  | item_locator :: rest =>
      if (5 <=? i)%nat then print MsgLimit
      else
        process_item self i item_locator;;
        for_items self (S i) rest
  end.

(** The whole method.  The [return []] of line 139 leaves it before the
    enumeration: the first [try] yields whether the items appeared. *)
Definition _parse_search_results (self : AlibabaScraper D) (page : Page D)
  : M (list record) (list record) :=
  set_locals [];;
  appeared <-
    try_except
      (wait_for_selector page (selector "product_item") 15000;;
       ret true)
      (fun e =>
         print (MsgNoItems e);;
         screenshot page "error_search_results_no_items.png";;
         ret false);;
  if (appeared : bool) then
    product_elements <- locator_all page (selector "product_item");;
    print (MsgFound (length product_elements));;
    for_items self 0 product_elements;;
    get_locals
  else ret [].

(** *** [search_by_image] (lines 192-223) *)

(** The [try] block (lines 195-216).  Leaving the [async with] of line 203
    awaits the file chooser that the click inside it opened. *)
Definition search_by_image_try (self : AlibabaScraper D) (page : Page D)
    (image_path : string) : M unit (list record) :=
  goto page "https://www.alibaba.com" "domcontentloaded" 30000;;
  call_method tt (_close_initial_popups self page);;
  let camera_icon_sel := selector "image_search_camera_icon" in
  print (MsgLookingCamera camera_icon_sel);;
  locator_click page camera_icon_sel 7000;;
  file_chooser <- expect_file_chooser page 10000;;
  set_files file_chooser image_path;;
  print (MsgImageSet image_path);;
  print MsgWaitingImage;;
  wait_for_timeout page 10000;;
  print MsgParsingImage;;
  call_method [] (_parse_search_results self page).

Definition search_by_image (self : AlibabaScraper D) (image_path : string)
  : M unit (list record) :=
  page <- _get_new_page self;;
  try_finally
    (try_except
       (search_by_image_try self page image_path)
       (fun e =>
          print (MsgImageError e);;
          screenshot page "error_image_search_page.png";;
          ret []))
    (close page).

(** *** [search_by_text] (lines 225-257) *)

(** The [try] block (lines 228-250). *)
Definition search_by_text_try (self : AlibabaScraper D) (page : Page D)
    (search_query : string) (use_smart_search : bool) : M unit (list record) :=
  goto page "https://www.alibaba.com" "domcontentloaded" 30000;;
  call_method tt (_close_initial_popups self page);;
  let search_bar_sel := selector "text_search_bar" in
  let search_button_sel := selector "text_search_button" in
  print (MsgTyping search_query search_bar_sel);;
  locator_fill page search_bar_sel search_query 7000;;
  print (MsgClicking search_button_sel);;
  locator_click page search_button_sel 7000;;
  print MsgWaitingText;;
  wait_for_timeout page 5000;;
  (if use_smart_search then print MsgSmartSearchNote else ret tt);;
  print MsgParsingText;;
  call_method [] (_parse_search_results self page).

Definition search_by_text (self : AlibabaScraper D) (search_query : string)
    (use_smart_search : bool) : M unit (list record) :=
  page <- _get_new_page self;;
  try_finally
    (try_except
       (search_by_text_try self page search_query use_smart_search)
       (fun e =>
          print (MsgTextError e);;
          screenshot page "error_text_search_page.png";;
          ret []))
    (close page).

(** *** Reading the log *)

(** The items whose processing began: the loop body first reads the title of
    its item (line 149), and nothing else reads a title. *)
Definition reads_title (ev : event) : option (Locator D) :=
  match ev with
  | EvCall (CTextContent l sel) _ =>
      if String.eqb sel (selector "product_title") then Some l else None
  | _ => None
  end.

Definition processed_items (tr : list event) : list (Locator D) := omap reads_title tr.

(** The note of lines 246-247. *)
Definition is_smart_search_note (ev : event) : bool :=
  match ev with
  | EvPrint MsgSmartSearchNote => true
  | _ => false
  end.

Definition without_note (tr : list event) : list event :=
  List.filter (fun ev => negb (is_smart_search_note ev)) tr.

End Scraper.

Arguments M D L A : clear implicits.
Arguments frame D L : clear implicits.
Arguments event D : clear implicits.
Arguments call D : clear implicits.
Arguments details_locals D : clear implicits.
Arguments Frame {D L} _ _ _.
Arguments locals {D L} _.
Arguments world {D L} _.
Arguments trace {D L} _.

(** ** A scripted browser

    A driver whose answers are read off a description of the site.  Pages and
    contexts are numbered, an item is its index in the result list, and the
    world counts the pages opened so far. *)
Module Scripted.

Record item_script : Type := ItemScript {
  item_title : outcome (option string);
  item_company : outcome (option string);
  item_href : outcome (option string)
}.

Record site : Type := Site {
  (* the result items of the results page *)
  site_items : list item_script;
  (* whether an item shows up before [wait_for_selector] times out *)
  site_items_appear : bool;
  (* [browser.contexts] *)
  site_contexts : list nat;
  (* whether a context opens a detail page *)
  site_detail_pages_open : bool;
  (* whether [goto url] succeeds *)
  site_goto_ok : string -> bool;
  (* whether [screenshot(path=..)] succeeds *)
  site_screenshot_ok : string -> bool;
  (* whether the search bar, the search button and the camera icon answer *)
  site_controls_ok : bool;
  (* whether the consent pop-up is shown *)
  site_consent_popup : bool;
  (* the markup of a detail page *)
  site_html : string
}.

Definition timeout_error : exn := PlaywrightTimeout "Timeout exceeded.".
Definition target_error : exn := PlaywrightError "Target page, context or browser has been closed".

Definition answer (ok : bool) (e : exn) (w : nat) : outcome unit * nat :=
  if ok then (Ret tt, w) else (Raise e, w).

Definition item_field (s : site) (l : nat) (field : item_script -> outcome (option string))
    (w : nat) : outcome (option string) * nat :=
  match site_items s !! l with
  | Some it => (field it, w)
  | None => (Raise timeout_error, w)
  end.

Definition driver (s : site) : Driver := {|
  World := nat;
  Browser := unit;
  Context := nat;
  Page := nat;
  Locator := nat;
  FileChooser := unit;
  browser_new_page := fun _ w => (Ret w, S w);
  browser_contexts := fun _ _ => site_contexts s;
  context_new_page := fun _ w =>
    if site_detail_pages_open s then (Ret w, S w) else (Raise target_error, w);
  page_goto := fun _ url _ _ w => answer (site_goto_ok s url) timeout_error w;
  page_is_visible := fun _ sel _ w =>
    (Ret (site_consent_popup s && String.eqb sel (selector "popup_consent_button")), w);
  page_click := fun _ _ w => (Ret tt, w);
  page_content := fun _ w => (Ret (site_html s), w);
  page_screenshot := fun _ path w => answer (site_screenshot_ok s path) target_error w;
  page_close := fun _ w => (Ret tt, w);
  page_wait_for_selector := fun _ _ _ w => answer (site_items_appear s) timeout_error w;
  page_wait_for_timeout := fun _ _ w => (Ret tt, w);
  page_locator_all := fun _ _ w => (Ret (seq 0 (length (site_items s))), w);
  page_locator_fill := fun _ _ _ _ w => answer (site_controls_ok s) timeout_error w;
  page_locator_click := fun _ _ _ w => answer (site_controls_ok s) timeout_error w;
  page_expect_file_chooser := fun _ _ w => (Ret tt, w);
  file_chooser_set_files := fun _ _ w => (Ret tt, w);
  locator_text_content := fun l sel _ w =>
    if String.eqb sel (selector "product_title") then item_field s l item_title w
    else item_field s l item_company w;
  locator_get_attribute := fun l _ _ _ w => item_field s l item_href w
|}.

(** An entered scraper. *)
Definition scraper (s : site) : AlibabaScraper (driver s) :=
  Build_AlibabaScraper (driver s) true (Some tt).

(** The state a caller starts a method in: nothing opened, nothing logged. *)
Definition start {L} (s : site) (l : L) : frame (driver s) L :=
  @Frame (driver s) L l 0 [].

(** A well-formed item. *)
Definition item (title company href : string) : item_script :=
  ItemScript (Ret (Some title)) (Ret (Some company)) (Ret (Some href)).

(** An item without a link attribute. *)
Definition item_without_link (title company : string) : item_script :=
  ItemScript (Ret (Some title)) (Ret (Some company)) (Ret None).

(** A site on which every call succeeds, with the given result items. *)
Definition healthy (items : list item_script) : site :=
  {| site_items := items;
     site_items_appear := true;
     site_contexts := [0];
     site_detail_pages_open := true;
     site_goto_ok := fun _ => true;
     site_screenshot_ok := fun _ => true;
     site_controls_ok := true;
     site_consent_popup := false;
     site_html := "<html></html>" |}.

(** The same site, on which no screenshot can be taken. *)
Definition without_screenshots (s : site) : site :=
  {| site_items := site_items s;
     site_items_appear := site_items_appear s;
     site_contexts := site_contexts s;
     site_detail_pages_open := site_detail_pages_open s;
     site_goto_ok := site_goto_ok s;
     site_screenshot_ok := fun _ => false;
     site_controls_ok := site_controls_ok s;
     site_consent_popup := site_consent_popup s;
     site_html := site_html s |}.

(** A site whose front page loads and whose other pages do not. *)
Definition only_front_page (items : list item_script) : site :=
  {| site_items := items;
     site_items_appear := true;
     site_contexts := [0];
     site_detail_pages_open := true;
     site_goto_ok := fun url => String.eqb url "https://www.alibaba.com";
     site_screenshot_ok := fun _ => true;
     site_controls_ok := true;
     site_consent_popup := false;
     site_html := "<html></html>" |}.

(** A site that does not load at all. *)
Definition unreachable : site :=
  {| site_items := [];
     site_items_appear := false;
     site_contexts := [0];
     site_detail_pages_open := true;
     site_goto_ok := fun _ => false;
     site_screenshot_ok := fun _ => true;
     site_controls_ok := false;
     site_consent_popup := false;
     site_html := "" |}.

(** A site whose results page stays empty. *)
Definition no_results : site :=
  {| site_items := [];
     site_items_appear := false;
     site_contexts := [0];
     site_detail_pages_open := true;
     site_goto_ok := fun _ => true;
     site_screenshot_ok := fun _ => true;
     site_controls_ok := true;
     site_consent_popup := false;
     site_html := "<html></html>" |}.

(** A browser without a context, or whose context opens no page. *)
Definition without_contexts (s : site) : site :=
  {| site_items := site_items s;
     site_items_appear := site_items_appear s;
     site_contexts := [];
     site_detail_pages_open := site_detail_pages_open s;
     site_goto_ok := site_goto_ok s;
     site_screenshot_ok := site_screenshot_ok s;
     site_controls_ok := site_controls_ok s;
     site_consent_popup := site_consent_popup s;
     site_html := site_html s |}.

Definition without_detail_pages (s : site) : site :=
  {| site_items := site_items s;
     site_items_appear := site_items_appear s;
     site_contexts := site_contexts s;
     site_detail_pages_open := false;
     site_goto_ok := site_goto_ok s;
     site_screenshot_ok := site_screenshot_ok s;
     site_controls_ok := site_controls_ok s;
     site_consent_popup := site_consent_popup s;
     site_html := site_html s |}.

(** A results page of three items of which the second has no readable
    title. *)
Definition broken_second_item : site :=
  healthy [ item "t0" "c0" "https://www.alibaba.com/p/0";
            ItemScript (Raise timeout_error) (Ret (Some "c1"))
              (Ret (Some "https://www.alibaba.com/p/1"));
            item "t2" "c2" "https://www.alibaba.com/p/2" ].

(** The value each returned record holds under [key]; [None] when the method
    raised. *)
Definition column (key : string) (r : outcome (list record)) : option (list (option pyval)) :=
  match r with
  | Ret rs => Some (map (fun rec : record => rec !! key) rs)
  | Raise _ => None
  end.

(** The frame of the detail extractor once its two locals are set, when it
    was called from [start]. *)
Definition entered (s : site) (product_url : string)
  : frame (driver s) (details_locals (driver s)) :=
  @Frame (driver s) _ (DetailsLocals None (initial_details product_url))
    (world (start s (@DetailsLocals (driver s) None ∅)))
    (trace (start s (@DetailsLocals (driver s) None ∅))).

(** The records a method returned; none when it raised. *)
Definition records (r : outcome (list record)) : list record :=
  match r with
  | Ret rs => rs
  | Raise _ => []
  end.

(** The values a returned record holds under [keys]. *)
Definition entries (keys : list string) (r : outcome record) : option (list (option pyval)) :=
  match r with
  | Ret rec => Some (map (fun key => rec !! key) keys)
  | Raise _ => None
  end.

(** The screenshots of a log, with whether they were taken. *)
Definition screenshots {D} (tr : list (event D)) : list (string * bool) :=
  omap (fun ev => match ev with
                  | EvCall (CScreenshot _ path) ok => Some (path, ok)
                  | _ => None
                  end) tr.

(** The results page of the end-to-end scenario: items 0-4 well formed with
    distinct absolute URLs, item 5 without a link, item 6 with a
    root-relative link. *)
Definition seven_items : list item_script :=
  [ item "t0" "c0" "https://www.alibaba.com/p/0";
    item "t1" "c1" "https://www.alibaba.com/p/1";
    item "t2" "c2" "https://www.alibaba.com/p/2";
    item "t3" "c3" "https://www.alibaba.com/p/3";
    item "t4" "c4" "https://www.alibaba.com/p/4";
    item_without_link "t5" "c5";
    item "t6" "c6" "/p/6" ].

End Scripted.

(** ** Vocabulary of the statements *)

(** The three fields a record takes from the results page. *)
Definition summary_fields (title company_summary : option string) (product_url : string)
    (r : record) : Prop :=
  r !! "title" = Some (of_optional title) /\
  r !! "company_summary" = Some (of_optional company_summary) /\
  r !! "product_page_url" = Some (PyStr product_url).

(** The test of line 176: [self._browser and self._browser.contexts], a
    browser object being truthy and a list being truthy when it is not
    empty. *)
Definition context_available {D} (self : AlibabaScraper D) (w : World D) : bool :=
  match _browser self with
  | Some browser =>
      match browser_contexts D browser w with
      | [] => false
      | _ :: _ => true
      end
  | None => false
  end.

(** A record the parser returns: it took [title], [company_summary] and
    [product_page_url] from the results page, the last one beginning with
    [http], and it holds the URL under ["url"] too when the detail record was
    merged into it ([merged]), under no such key otherwise. *)
Definition returned_record (merged : bool) (r : record) : Prop :=
  exists title company_summary product_url,
    summary_fields title company_summary product_url r /\
    startswith product_url "http" = true /\
    r !! "url" = if merged then Some (PyStr product_url) else None.

(** A driver call that returns in every world. *)
Definition never_raises {W A} (op : W -> outcome A * W) : Prop :=
  forall w, is_ret (fst (op w)) = true.

(** A driver call that raises in every world. *)
Definition always_raises {W A} (op : W -> outcome A * W) : Prop :=
  forall w, is_ret (fst (op w)) = false.

(** A result item whose three fields can be read, in every world. *)
Definition well_formed_item {D} (item : Locator D) (fields : string * string * string)
  : Prop :=
  let '(title, company_summary, href) := fields in
  (forall w, exists w',
      locator_text_content D item (selector "product_title") 3000 w
        = (Ret (Some title), w')) /\
  (forall w, exists w',
      locator_text_content D item (selector "product_company_summary") 3000 w
        = (Ret (Some company_summary), w')) /\
  (forall w, exists w',
      locator_get_attribute D item (selector "product_link") "href" 3000 w
        = (Ret (Some href), w')).

(** The URLs the log shows a [goto] for. *)
Definition navigation {D} (ev : event D) : option string :=
  match ev with
  | EvCall (CGoto _ url) _ => Some url
  | _ => None
  end.

Definition navigations {D} (tr : list (event D)) : list string := omap navigation tr.

(** The reading of the log that retains the [goto]s to a URL that does not
    begin with [http]. *)
Definition bad_navigation {D} (ev : event D) : option string :=
  match ev with
  | EvCall (CGoto _ url) _ => if startswith url "http" then None else Some url
  | _ => None
  end.

(** A method is silent for a reading [proj] of the log when, whatever the log
    was, it only adds events to it, the same events, and none that [proj]
    retains; its outcome, locals and world do not depend on the log. *)
Definition silent {D L A X} (proj : event D -> option X) (m : M D L A) : Prop :=
  forall l w, exists r l' w' evs,
    omap proj evs = [] /\
    forall tr, m (Frame l w tr) = (r, Frame l' w' (tr ++ evs)%list).

(** The reading that retains nothing. *)
Definition nothing {D} (ev : event D) : option unit := None.

(** ** The session: [__init__], [__aenter__], [__aexit__], [async with] *)

(** What a session needs from outside besides the pages: Playwright itself
    and the browser as a process. *)
Record Host (D : Driver) : Type := {
  Playwright : Type;
  (* async_playwright().start() *)
  playwright_start : World D -> outcome Playwright * World D;
  (* playwright.chromium.launch(headless=..) *)
  chromium_launch : Playwright -> bool -> World D -> outcome (Browser D) * World D;
  (* browser.close() *)
  browser_close : Browser D -> World D -> outcome unit * World D;
  (* playwright.stop() *)
  playwright_stop : Playwright -> World D -> outcome unit * World D
}.
Arguments Playwright {D} _.
Arguments playwright_start {D} _ _.
Arguments chromium_launch {D} _ _ _ _.
Arguments browser_close {D} _ _ _.
Arguments playwright_stop {D} _ _ _.

Section Session.

Context {D : Driver} (H : Host D).

(** The scraper object with all its fields: [this] holds [self.headless] and
    [self._browser], the two fields the other methods read. *)
Record AlibabaSession : Type := {
  this : AlibabaScraper D;
  _playwright : option (Playwright H)
}.

(** [__init__] (lines 26-46); [self.selectors] is the constant [selectors]. *)
Definition __init__ (headless : bool) : AlibabaSession :=
  {| this := Build_AlibabaScraper D headless None; _playwright := None |}.

Inductive host_call : Type :=
| HStart
| HLaunch (headless : bool)
| HBrowserClose (browser : Browser D)
| HStop (playwright : Playwright H).

Inductive host_message : Type :=
| MsgBrowserLaunched (headless : bool)
| MsgBrowserClosed.

(** The log of a session: its own calls and messages, and what the methods
    called in it logged. *)
Inductive host_event : Type :=
| HvCall (c : host_call) (ok : bool)
| HvPrint (m : host_message)
| HvMethod (ev : event D).

(** The state of a session: the object, the world and the log. *)
Record session_frame : Type := SessionFrame {
  object : AlibabaSession;
  host_world : World D;
  host_log : list host_event
}.

Definition Session (A : Type) : Type := session_frame -> outcome A * session_frame.

Definition sret {A} (a : A) : Session A := fun sf => (Ret a, sf).

Definition sbind {A B} (m : Session A) (k : A -> Session B) : Session B :=
  fun sf =>
    match m sf with
    | (Ret a, sf') => k a sf'
    | (Raise e, sf') => (Raise e, sf')
    end.

(** [try: body finally: final], as [try_finally]. *)
Definition s_try_finally {A} (body : Session A) (final : Session unit) : Session A :=
  fun sf =>
    let '(r, sf') := body sf in
    match final sf' with
    | (Ret _, sf'') => (r, sf'')
    | (Raise e, sf'') => (Raise e, sf'')
    end.

Definition get_self : Session AlibabaSession := fun sf => (Ret (object sf), sf).

(** [self._browser = b] and [self._playwright = p]. *)
Definition set_browser (b : option (Browser D)) : Session unit :=
  fun sf =>
    (Ret tt,
     SessionFrame
       {| this := Build_AlibabaScraper D (headless (this (object sf))) b;
          _playwright := _playwright (object sf) |}
       (host_world sf) (host_log sf)).

Definition set_playwright (p : option (Playwright H)) : Session unit :=
  fun sf =>
    (Ret tt,
     SessionFrame {| this := this (object sf); _playwright := p |}
       (host_world sf) (host_log sf)).

Definition host_print (m : host_message) : Session unit :=
  fun sf => (Ret tt, SessionFrame (object sf) (host_world sf) (host_log sf ++ [HvPrint m])%list).

Definition host_invoke {A} (c : host_call) (op : World D -> outcome A * World D) : Session A :=
  fun sf =>
    let '(r, w) := op (host_world sf) in
    (r, SessionFrame (object sf) w (host_log sf ++ [HvCall c (is_ret r)])%list).

(** A call of a method of the scraper, [await scraper.m(..)]: the method
    sees the object as it is now. *)
Definition run_method {A} (m : AlibabaScraper D -> M D unit A) : Session A :=
  fun sf =>
    let '(r, f) := m (this (object sf)) (Frame tt (host_world sf) []) in
    (r, SessionFrame (object sf) (world f) (host_log sf ++ map HvMethod (trace f))%list).

Declare Scope session_scope.
Delimit Scope session_scope with session.
Notation "x <- m ;; k" := (sbind m (fun x => k))
  (at level 100, m at next level, k at level 200, right associativity) : session_scope.
Notation "m ;; k" := (sbind m (fun _ => k))
  (at level 100, k at level 200, right associativity) : session_scope.
Local Open Scope session_scope.

(** [__aenter__] (lines 48-52).  The launch reads [self._playwright], which
    the line before has just set. *)
Definition __aenter__ : Session AlibabaSession :=
  playwright <- host_invoke HStart (playwright_start H);;
  set_playwright (Some playwright);;
  self <- get_self;;
  browser <-
    host_invoke (HLaunch (headless (this self)))
      (chromium_launch H playwright (headless (this self)));;
  set_browser (Some browser);;
  self <- get_self;;
  host_print (MsgBrowserLaunched (headless (this self)));;
  self <- get_self;;
  sret self.

(** [__aexit__] (lines 54-61); its three arguments are not used, and it
    returns [None]. *)
Definition __aexit__ : Session unit :=
  self <- get_self;;
  match _browser (this self) with
  | Some browser =>
      host_invoke (HBrowserClose browser) (browser_close H browser);;
      host_print MsgBrowserClosed
  | None => sret tt
  end;;
  self <- get_self;;
  match _playwright self with
  | Some playwright => host_invoke (HStop playwright) (playwright_stop H playwright)
  | None => sret tt
  end;;
  set_browser None;;
  set_playwright None.

(** [async with scraper: body], as [main] uses the scraper (line 266).
    [__aexit__] is not called when [__aenter__] raises; it is called on every
    exit of [body], and as it returns [None] it suppresses no exception of
    [body]. *)
Definition async_with {A} (body : Session A) : Session A :=
  __aenter__;;
  s_try_finally body __aexit__.

(** The session's own calls in a log. *)
(** The state [__aenter__] leaves when Playwright started and the browser
    launched: both fields set, two calls and one message logged. *)
Definition entered_frame (sf : session_frame) (playwright : Playwright H)
    (browser : Browser D) (w : World D) : session_frame :=
  SessionFrame
    {| this := Build_AlibabaScraper D (headless (this (object sf))) (Some browser);
       _playwright := Some playwright |}
    w
    (host_log sf ++
       [HvCall HStart true; HvCall (HLaunch (headless (this (object sf)))) true;
        HvPrint (MsgBrowserLaunched (headless (this (object sf))))])%list.

Definition host_calls (log : list host_event) : list (host_call * bool) :=
  omap (fun ev => match ev with HvCall c ok => Some (c, ok) | _ => None end) log.

End Session.

Arguments AlibabaSession {D} H.
Arguments session_frame {D} H.
Arguments host_event {D} H.
Arguments host_call {D} H.
Arguments Session {D} H A.
Arguments SessionFrame {D H} _ _ _.
Arguments object {D H} _.
Arguments host_world {D H} _.
Arguments host_log {D H} _.
Arguments this {D H} _.
Arguments _playwright {D H} _.
Arguments HStart {D H}.
Arguments HLaunch {D H} _.
Arguments HBrowserClose {D H} _.
Arguments HStop {D H} _.
Arguments HvCall {D H} _ _.
Arguments HvPrint {D H} _.
Arguments HvMethod {D H} _.
Arguments host_calls {D H} _.

(** A scripted host: a browser that launches, closes and stops as told. *)
Module ScriptedHost.

Definition host (launch_ok close_ok stop_ok : bool) (s : Scripted.site)
  : Host (Scripted.driver s) :=
  Build_Host (Scripted.driver s) unit
    (fun w => (Ret tt, w))
    (fun _ _ w =>
       if launch_ok then (Ret (tt : Browser (Scripted.driver s)), w)
       else (Raise Scripted.target_error, w))
    (fun _ w => Scripted.answer close_ok Scripted.target_error w)
    (fun _ w => Scripted.answer stop_ok Scripted.target_error w).

(** A session on a scraper just built, [AlibabaScraper(headless=True)]. *)
Definition fresh (launch_ok close_ok stop_ok : bool) (s : Scripted.site)
  : session_frame (host launch_ok close_ok stop_ok s) :=
  @SessionFrame (Scripted.driver s) _
    (__init__ (host launch_ok close_ok stop_ok s) true) 0%nat [].

(** A browser that has crashed: it opens no page; the rest is [Scripted.driver]. *)
Definition crashed (s : Scripted.site) : Driver :=
  let d := Scripted.driver s in
  {| World := nat;
     Browser := unit;
     Context := nat;
     Page := nat;
     Locator := nat;
     FileChooser := unit;
     browser_new_page := fun _ w => (Raise Scripted.target_error, w);
     browser_contexts := browser_contexts d;
     context_new_page := context_new_page d;
     page_goto := page_goto d;
     page_is_visible := page_is_visible d;
     page_click := page_click d;
     page_content := page_content d;
     page_screenshot := page_screenshot d;
     page_close := page_close d;
     page_wait_for_selector := page_wait_for_selector d;
     page_wait_for_timeout := page_wait_for_timeout d;
     page_locator_all := page_locator_all d;
     page_locator_fill := page_locator_fill d;
     page_locator_click := page_locator_click d;
     page_expect_file_chooser := page_expect_file_chooser d;
     file_chooser_set_files := file_chooser_set_files d;
     locator_text_content := locator_text_content d;
     locator_get_attribute := locator_get_attribute d |}.

(** A site that shows the consent pop-up. *)
Definition with_consent_popup (s : Scripted.site) : Scripted.site :=
  {| Scripted.site_items := Scripted.site_items s;
     Scripted.site_items_appear := Scripted.site_items_appear s;
     Scripted.site_contexts := Scripted.site_contexts s;
     Scripted.site_detail_pages_open := Scripted.site_detail_pages_open s;
     Scripted.site_goto_ok := Scripted.site_goto_ok s;
     Scripted.site_screenshot_ok := Scripted.site_screenshot_ok s;
     Scripted.site_controls_ok := Scripted.site_controls_ok s;
     Scripted.site_consent_popup := true;
     Scripted.site_html := Scripted.site_html s |}.

End ScriptedHost.

(** ** More readings of the log *)

(** The selectors [page.click] was called with, and those [page.is_visible]
    was called with. *)
Definition clicked {D} (ev : event D) : option string :=
  match ev with
  | EvCall (CClick _ sel) _ => Some sel
  | _ => None
  end.

Definition probed {D} (ev : event D) : option string :=
  match ev with
  | EvCall (CIsVisible _ sel) _ => Some sel
  | _ => None
  end.

(** The pages that were opened (by the browser or by a context, one [tt] for
    each call that returned) and the calls of [page.close]. *)
Definition opened {D} (ev : event D) : option unit :=
  match ev with
  | EvCall CBrowserNewPage true => Some tt
  | EvCall (CContextNewPage _) true => Some tt
  | _ => None
  end.

Definition closed {D} (ev : event D) : option (Page D) :=
  match ev with
  | EvCall (CClose p) _ => Some p
  | _ => None
  end.

(** As many calls of [page.close] as pages opened. *)
Definition pages_balanced {D} (evs : list (event D)) : Prop :=
  length (omap opened evs) = length (omap closed evs).

(** No page opened, none closed. *)
Definition no_page_event {D} (evs : list (event D)) : Prop :=
  omap opened evs = [] /\ omap closed evs = [].

(** A method emits events that satisfy [Q] when, whatever the log was, it
    adds to it the same events [evs], with [Q evs]; its outcome, locals and
    world do not depend on the log. *)
Definition emits {D L A} (Q : list (event D) -> Prop) (m : M D L A) : Prop :=
  forall l w, exists r l' w' evs,
    Q evs /\
    forall tr, m (Frame l w tr) = (r, Frame l' w' (tr ++ evs)%list).

(** Whether a string holds a slash. *)
Fixpoint has_slash (s : string) : bool :=
  match s with
  | EmptyString => false
  | String c s' => Ascii.eqb c "/"%char || has_slash s'
  end.

(** The fields of a record that only the detail page could fill. *)
Definition detail_fields_unset (r : record) : Prop :=
  r !! "full_description" = Some (PyStr "N/A") /\
  r !! "images" = Some (PyList []) /\
  r !! "price_per_unit" = Some (PyStr "N/A") /\
  r !! "company_years" = Some (PyStr "N/A") /\
  r !! "verified_supplier" = Some (PyStr "N/A") /\
  exists html, r !! "html_content" = Some (PyStr html).

(** The keys of the summary record of lines 166-173. *)
Definition summary_keys : gset string :=
  list_to_set
    [ "title"; "company_summary"; "product_page_url"; "full_description"; "images";
      "html_content"; "price_per_unit"; "company_years"; "verified_supplier" ].

(** * Properties *)

(** ** Strings *)

Lemma startswith_nil (s : string) : startswith s "" = true.
Proof. destruct s; reflexivity. Qed.

Lemma startswith_cons_same (c : ascii) (p s : string) :
  startswith (String c s) (String c p) = startswith s p.
Proof.
  unfold startswith. simpl. destruct (ascii_dec c c); [reflexivity | congruence].
Qed.

Lemma startswith_cons (c : ascii) (p s : string) :
  startswith s (String c p) = true ->
  exists s', s = String c s' /\ startswith s' p = true.
Proof.
  unfold startswith. destruct s as [|d s']; simpl; [discriminate|].
  destruct (ascii_dec c d) as [->|]; [|discriminate].
  intros H. exists s'. split; [reflexivity | exact H].
Qed.

Lemma startswith_slash_not_http (s : string) :
  startswith s "http" = true -> startswith s "//" = false /\ startswith s "/" = false.
Proof.
  intros H. apply startswith_cons in H as (s' & -> & _).
  split; unfold startswith; simpl; destruct (ascii_dec "/" "h"); congruence.
Qed.

Lemma startswith_double_slash (s : string) :
  startswith s "//" = true -> startswith s "/" = true.
Proof.
  intros H. apply startswith_cons in H as (s' & -> & _).
  rewrite startswith_cons_same. apply startswith_nil.
Qed.

Lemma normalize_url_accepted (s : string) :
  startswith s "/" = true -> startswith (normalize_url s) "http" = true.
Proof.
  intros H. unfold normalize_url, site_origin.
  destruct (startswith s "//"); [|rewrite H]; reflexivity.
Qed.

Lemma normalize_url_other (s : string) :
  startswith s "/" = false -> normalize_url s = s.
Proof.
  intros H. unfold normalize_url. rewrite H.
  destruct (startswith s "//") eqn:E; [|reflexivity].
  apply startswith_double_slash in E. congruence.
Qed.

Lemma nonempty_of_startswith (c : ascii) (p s : string) :
  startswith s (String c p) = true -> String.eqb s "" = false.
Proof. intros H. apply startswith_cons in H as (s' & -> & _). reflexivity. Qed.

Lemma accepted_url_startswith_http (href : option string) (u : string) :
  accepted_url href = Some u -> startswith u "http" = true.
Proof.
  destruct href as [s|]; simpl; [|discriminate].
  destruct (String.eqb s ""); [discriminate|].
  destruct (startswith (normalize_url s) "http") eqn:E; simpl; [|discriminate].
  intros [= <-]. exact E.
Qed.

(** ** Running a method *)

(** Unfolds the monad and the driver calls of a run. *)
Ltac unfold_run :=
  cbv [bind ret raise try_except try_finally get_locals set_locals log print
       invoke call_method read goto is_visible click content screenshot close
       wait_for_selector wait_for_timeout locator_all locator_fill locator_click
       expect_file_chooser set_files text_content get_attribute];
  cbn [locals world trace fst snd is_ret product_page details].

Ltac simpl_run := cbn [locals world trace fst snd is_ret product_page details].

(** Splits on the next driver call of a run. *)
Ltac head_of t :=
  lazymatch t with
  | ?g _ => head_of g
  | _ => t
  end.

Ltac split_call :=
  match goal with
  | |- context [let '(_, _) := ?op in _] =>
      let h := head_of op in
      is_const h;
      let E := fresh "Ecall" in
      destruct op as [[?|?] ?] eqn:E; simpl_run
  end.

(** [_close_initial_popups] swallows every error of its own calls. *)
Lemma close_initial_popups_returns {D} (self : AlibabaScraper D) (page : Page D)
    (f : frame D unit) :
  exists f', _close_initial_popups self page f = (Ret tt, f').
Proof.
  unfold _close_initial_popups. unfold_run.
  repeat (split_call; try match goal with
                          | b : bool |- _ => destruct b
                          end);
    eauto.
Qed.

Ltac skip_popups :=
  match goal with
  | |- context [_close_initial_popups ?self ?page ?f] =>
      let f' := fresh "f" in
      let E := fresh "Epop" in
      destruct (close_initial_popups_returns self page f) as [f' E];
      rewrite E; simpl_run
  end.

(** ** The detail extractor *)

(** When the [try] block raises, nothing has been extracted yet: [details]
    is as it was, and [product_page] tells whether the page was opened. *)
Lemma extract_details_try_raises {D} (self : AlibabaScraper D) (product_url : string)
    (context : Context D) (d : record) (w : World D) (tr : list (event D))
    (e : exn) (f1 : frame D (details_locals D)) :
  extract_details_try self product_url context (Frame (DetailsLocals None d) w tr)
    = (Raise e, f1) ->
  details (locals f1) = d /\
  match product_page (locals f1) with
  | None => exists w1, context_new_page D context w = (Raise e, w1) /\ world f1 = w1
            /\ trace f1 = (tr ++ [EvCall (CContextNewPage context) false])%list
  | Some page => exists w1, context_new_page D context w = (Ret page, w1)
  end.
Proof.
  unfold extract_details_try. unfold_run.
  repeat (first [skip_popups | split_call]);
    intros [= <- <-]; cbn [locals world trace details product_page]; eauto.
Qed.

(** What the extractor returns when it returns: the initial record, with the
    markup of the page when the [try] block ran through. *)
Lemma extract_details_returns {D} (self : AlibabaScraper D) (product_url : string)
    (context : Context D) (f f' : frame D (details_locals D)) (d : record) :
  _extract_product_details_from_product_page self product_url context f = (Ret d, f') ->
  d = initial_details product_url \/
  exists html, d = <["html_content" := PyStr html]> (initial_details product_url).
Proof.
  unfold _extract_product_details_from_product_page, extract_details_try,
    extract_details_except, extract_details_finally.
  unfold_run.
  repeat (first [skip_popups | split_call]);
    intros H; (discriminate H || injection H as <- <-); eauto.
Qed.

(** C7 (as amended).  The detail extractor on its error paths.  (1) When the
    page cannot be opened, the error is logged, no screenshot is taken and the
    record is returned with every field at its initial value.  (2) When a
    step fails after the page was opened, the error is logged and a screenshot
    is taken at [error_product_page_<last URL segment>.png]; if that
    screenshot and the closing of the page return, the extractor returns the
    record with every field at its initial value (["N/A"], no images) and
    raises nothing.  (3) Once the page is opened, the last thing the extractor
    does on every path, raising or not, is to close it. *)
Theorem extract_details_error_paths {D} (self : AlibabaScraper D) (product_url : string)
    (context : Context D) (f : frame D (details_locals D)) :
  let entered := DetailsLocals None (initial_details product_url) in
  (forall e w1,
      context_new_page D context (world f) = (Raise e, w1) ->
      _extract_product_details_from_product_page self product_url context f =
        (Ret (initial_details product_url),
         Frame entered w1
           (trace f ++ [EvCall (CContextNewPage context) false;
                        EvPrint (MsgErrorDetails product_url e)]))) /\
  (forall e f1 page w2 w3,
      extract_details_try self product_url context (Frame entered (world f) (trace f))
        = (Raise e, f1) ->
      product_page (locals f1) = Some page ->
      page_screenshot D page (error_product_page_path product_url) (world f1)
        = (Ret tt, w2) ->
      page_close D page w2 = (Ret tt, w3) ->
      _extract_product_details_from_product_page self product_url context f =
        (Ret (initial_details product_url),
         Frame (DetailsLocals (Some page) (initial_details product_url)) w3
           (trace f1 ++
              [EvPrint (MsgErrorDetails product_url e);
               EvCall (CScreenshot page (error_product_page_path product_url)) true;
               EvCall (CClose page) true]))) /\
  (forall page w1,
      context_new_page D context (world f) = (Ret page, w1) ->
      exists tr ok,
        trace (snd (_extract_product_details_from_product_page self product_url context f))
          = (tr ++ [EvCall (CClose page) ok])%list).
Proof.
  intros entered. split; [|split].
  - intros e w1 Hnew.
    unfold _extract_product_details_from_product_page, extract_details_try,
      extract_details_except, extract_details_finally.
    unfold_run. rewrite Hnew. simpl_run.
    rewrite <- app_assoc. reflexivity.
  - intros e f1 page w2 w3 Htry Hpage Hshot Hclose.
    destruct (extract_details_try_raises _ _ _ _ _ _ _ _ Htry) as [Hd _].
    unfold _extract_product_details_from_product_page,
      extract_details_except, extract_details_finally.
    unfold_run. fold entered. rewrite Htry.
    simpl_run.
    rewrite Hpage. simpl_run. rewrite Hshot. simpl_run.
    rewrite Hpage. simpl_run. rewrite Hclose. simpl_run.
    rewrite Hd, <- !app_assoc.
    destruct f1 as [[pp d1] w1 tr1]. simpl in *. subst. reflexivity.
  - intros page w1 Hnew.
    unfold _extract_product_details_from_product_page, extract_details_try,
      extract_details_except, extract_details_finally.
    unfold_run. rewrite Hnew. simpl_run.
    repeat (first [skip_popups | split_call]);
      simpl_run;
      eauto.
Qed.

(** ** One result item *)

Lemma merged_summary_fields (t c : option string) (u : string) (d : record) :
  d = initial_details u \/
  (exists html, d = <["html_content" := PyStr html]> (initial_details u)) ->
  summary_fields t c u (update (product_summary_of t c u) d) /\
  update (product_summary_of t c u) d !! "url" = Some (PyStr u).
Proof.
  intros [-> | [html ->]]; repeat split; reflexivity.
Qed.

Lemma plain_summary_fields (t c : option string) (u : string) :
  summary_fields t c u (product_summary_of t c u) /\
  product_summary_of t c u !! "url" = None.
Proof. repeat split; reflexivity. Qed.

(** What the [try] block of the loop body does once the three fields of the
    item are read. *)
Lemma process_item_try_spec {D} (self : AlibabaScraper D) (i : nat) (item : Locator D)
    (f : frame D (list record)) t w1 c w2 h w3 :
  locator_text_content D item (selector "product_title") 3000 (world f) = (Ret t, w1) ->
  locator_text_content D item (selector "product_company_summary") 3000 w1 = (Ret c, w2) ->
  locator_get_attribute D item (selector "product_link") "href" 3000 w2 = (Ret h, w3) ->
  exists r f',
    process_item_try self i item f = (r, f') /\
    match accepted_url h with
    | None => r = Ret tt /\ locals f' = locals f /\ world f' = w3
    | Some u =>
        (exists e context0 f0 f0',
            r = Raise e /\ locals f' = locals f /\
            _extract_product_details_from_product_page self u context0 f0
              = (Raise e, f0')) \/
        (r = Ret tt /\
         exists rec,
           locals f' = (locals f ++ [rec])%list /\
           summary_fields t c u rec /\
           rec !! "url" = if context_available self w3 then Some (PyStr u) else None)
    end.
Proof.
  intros Ht Hc Hh.
  unfold process_item_try, append_product, accepted_url, context_available.
  unfold_run. rewrite Ht. simpl_run. rewrite Hc. simpl_run. rewrite Hh. simpl_run.
  destruct h as [s|]; [|eauto 6].
  destruct (String.eqb s ""); [eauto 6|].
  destruct (startswith (normalize_url s) "http"); cbn [negb]; [|eauto 6].
  destruct (_browser self) as [browser|]; simpl_run.
  - destruct (browser_contexts D browser w3) as [|context0 ?]; simpl_run.
    + do 2 eexists. split; [reflexivity|]. right. split; [reflexivity|].
      eexists. split; [reflexivity|]. apply plain_summary_fields.
    + split_call.
      * apply extract_details_returns in Ecall.
        do 2 eexists. split; [reflexivity|]. right. split; [reflexivity|].
        eexists. split; [reflexivity|]. apply merged_summary_fields, Ecall.
      * do 2 eexists. split; [reflexivity|]. left. eauto 10.
  - do 2 eexists. split; [reflexivity|]. right. split; [reflexivity|].
    eexists. split; [reflexivity|]. apply plain_summary_fields.
Qed.

(** ** Methods and the log *)

Section Silent.

Context {D : Driver} {X : Type} (proj : event D -> option X).

Lemma silent_ret {L A} (a : A) : silent proj (ret a : M D L A).
Proof.
  intros l w. exists (Ret a), l, w, []. split; [reflexivity|].
  intros tr. unfold ret. rewrite app_nil_r. reflexivity.
Qed.

Lemma silent_raise {L A} (e : exn) : silent proj (raise e : M D L A).
Proof.
  intros l w. exists (Raise e), l, w, []. split; [reflexivity|].
  intros tr. unfold raise. rewrite app_nil_r. reflexivity.
Qed.

Lemma silent_get_locals {L} : silent proj (get_locals : M D L L).
Proof.
  intros l w. exists (Ret l), l, w, []. split; [reflexivity|].
  intros tr. unfold get_locals. simpl. rewrite app_nil_r. reflexivity.
Qed.

Lemma silent_set_locals {L} (l0 : L) : silent proj (set_locals l0 : M D L unit).
Proof.
  intros l w. exists (Ret tt), l0, w, []. split; [reflexivity|].
  intros tr. unfold set_locals. simpl. rewrite app_nil_r. reflexivity.
Qed.

Lemma silent_read {L A} (g : World D -> A) : silent proj (read g : M D L A).
Proof.
  intros l w. exists (Ret (g w)), l, w, []. split; [reflexivity|].
  intros tr. unfold read. simpl. rewrite app_nil_r. reflexivity.
Qed.

Lemma silent_print {L} (m : message) :
  proj (EvPrint m) = None -> silent proj (print m : M D L unit).
Proof.
  intros H l w. exists (Ret tt), l, w, [EvPrint m]. split.
  - simpl. rewrite H. reflexivity.
  - intros tr. reflexivity.
Qed.

Lemma silent_invoke {L A} (c : call D) (op : World D -> outcome A * World D) :
  (forall ok, proj (EvCall c ok) = None) -> silent proj (invoke c op : M D L A).
Proof.
  intros H l w. destruct (op w) as [r w'] eqn:E.
  exists r, l, w', [EvCall c (is_ret r)]. split.
  - simpl. rewrite H. reflexivity.
  - intros tr. unfold invoke. simpl. rewrite E. reflexivity.
Qed.

Lemma silent_bind {L A B} (m : M D L A) (k : A -> M D L B) :
  silent proj m -> (forall a, silent proj (k a)) -> silent proj (bind m k).
Proof.
  intros Hm Hk l w. destruct (Hm l w) as (r & l1 & w1 & evs1 & Hq1 & Hrun1).
  destruct r as [a|e].
  - destruct (Hk a l1 w1) as (r2 & l2 & w2 & evs2 & Hq2 & Hrun2).
    exists r2, l2, w2, (evs1 ++ evs2)%list. split.
    + rewrite omap_app, Hq1, Hq2. reflexivity.
    + intros tr. unfold bind. rewrite Hrun1, Hrun2, app_assoc. reflexivity.
  - exists (Raise e), l1, w1, evs1. split; [exact Hq1|].
    intros tr. unfold bind. rewrite Hrun1. reflexivity.
Qed.

Lemma silent_try_except {L A} (body : M D L A) (handler : exn -> M D L A) :
  silent proj body -> (forall e, silent proj (handler e)) ->
  silent proj (try_except body handler).
Proof.
  intros Hm Hk l w. destruct (Hm l w) as (r & l1 & w1 & evs1 & Hq1 & Hrun1).
  destruct r as [a|e].
  - exists (Ret a), l1, w1, evs1. split; [exact Hq1|].
    intros tr. unfold try_except. rewrite Hrun1. reflexivity.
  - destruct (Hk e l1 w1) as (r2 & l2 & w2 & evs2 & Hq2 & Hrun2).
    exists r2, l2, w2, (evs1 ++ evs2)%list. split.
    + rewrite omap_app, Hq1, Hq2. reflexivity.
    + intros tr. unfold try_except. rewrite Hrun1, Hrun2, app_assoc. reflexivity.
Qed.

Lemma silent_try_finally {L A} (body : M D L A) (final : M D L unit) :
  silent proj body -> silent proj final -> silent proj (try_finally body final).
Proof.
  intros Hm Hk l w. destruct (Hm l w) as (r & l1 & w1 & evs1 & Hq1 & Hrun1).
  destruct (Hk l1 w1) as (r2 & l2 & w2 & evs2 & Hq2 & Hrun2).
  exists (match r2 with Ret _ => r | Raise e => Raise e end), l2, w2,
    (evs1 ++ evs2)%list.
  split.
  - rewrite omap_app, Hq1, Hq2. reflexivity.
  - intros tr. unfold try_finally. rewrite Hrun1, Hrun2, app_assoc.
    destruct r2; reflexivity.
Qed.

Lemma silent_call_method {L L' A} (l0 : L') (m : M D L' A) :
  silent proj m -> silent proj (call_method l0 m : M D L A).
Proof.
  intros Hm l w. destruct (Hm l0 w) as (r & l1 & w1 & evs1 & Hq1 & Hrun1).
  exists r, l, w1, evs1. split; [exact Hq1|].
  intros tr. unfold call_method. simpl. rewrite Hrun1. reflexivity.
Qed.

(** A run of a silent method from any frame. *)
Lemma silent_run {L A} (m : M D L A) (f : frame D L) :
  silent proj m ->
  exists r l' w' evs,
    m f = (r, Frame l' w' (trace f ++ evs)%list) /\ omap proj evs = [].
Proof.
  intros Hm. destruct f as [l w tr].
  destruct (Hm l w) as (r & l1 & w1 & evs1 & Hq1 & Hrun1).
  exists r, l1, w1, evs1. split; [apply Hrun1 | exact Hq1].
Qed.

End Silent.

(** Proves [silent proj m] along the syntax of [m]; [known] closes the goals
    about the methods [m] calls.  The events [m] adds must be none of the
    title reads: a hypothesis says that [proj] drops every other event. *)
Ltac drops_event :=
  first
    [ reflexivity
    | match goal with
      | H : forall ev, reads_title ev = None -> _ |- _ => apply H; reflexivity
      end ].

Ltac silent_with known :=
  cbv zeta;
  repeat first
    [ known
    | apply silent_ret
    | apply silent_raise
    | apply silent_get_locals
    | apply silent_set_locals
    | apply silent_read
    | apply silent_print; drops_event
    | apply silent_invoke; intros ?; drops_event
    | apply silent_call_method
    | apply silent_bind; [|intros ?]
    | apply silent_try_except; [|intros ?]
    | apply silent_try_finally
    | match goal with
      | |- silent _ (match ?x with _ => _ end) => destruct x eqn:?
      end ].

Ltac unfold_calls :=
  unfold goto, is_visible, click, content, screenshot, close, wait_for_selector,
    wait_for_timeout, locator_all, locator_fill, locator_click,
    expect_file_chooser, set_files, text_content, get_attribute.

Section SilentMethods.

Context {D : Driver} {X : Type} (proj : event D -> option X).

(** [proj] retains at most the reads of a title. *)
Hypothesis proj_titles : forall ev, reads_title ev = None -> proj ev = None.

Lemma close_initial_popups_silent (self : AlibabaScraper D) (page : Page D) :
  silent proj (_close_initial_popups self page).
Proof.
  unfold _close_initial_popups. unfold_calls. silent_with fail.
Qed.

Lemma extract_details_silent (self : AlibabaScraper D) (product_url : string)
    (context : Context D) :
  silent proj (_extract_product_details_from_product_page self product_url context).
Proof.
  unfold _extract_product_details_from_product_page, extract_details_try,
    extract_details_except, extract_details_finally.
  unfold_calls. silent_with ltac:(apply close_initial_popups_silent).
Qed.

(** A [try] statement whose block begins with a driver call: the call is
    logged first, whatever follows. *)
Lemma try_except_first_call {L A B} (c : call D) (op : World D -> outcome A * World D)
    (k : A -> M D L B) (h : exn -> M D L B) (f : frame D L) :
  (forall a, silent proj (k a)) -> (forall e, silent proj (h e)) ->
  exists r f' ok evs,
    try_except (bind (invoke c op) k) h f = (r, f') /\
    trace f' = (trace f ++ EvCall c ok :: evs)%list /\
    omap proj evs = [].
Proof.
  intros Hk Hh. unfold try_except, bind, invoke.
  destruct (op (world f)) as [[a|e] w1]; cbn [is_ret].
  - match goal with
    | |- context [k a ?f1] =>
        destruct (silent_run proj (k a) f1 (Hk a)) as (r & l' & w' & evs & Hrun & Hq)
    end.
    rewrite Hrun. cbn [trace] in *. destruct r as [b|e].
    + exists (Ret b), (Frame l' w' ((trace f ++ [EvCall c true]) ++ evs)), true, evs.
      rewrite <- app_assoc. auto.
    + match goal with
      | |- context [h e ?f1] =>
          destruct (silent_run proj (h e) f1 (Hh e))
            as (r2 & l2 & w2 & evs2 & Hrun2 & Hq2)
      end.
      rewrite Hrun2. cbn [trace] in *.
      exists r2, (Frame l2 w2 (((trace f ++ [EvCall c true]) ++ evs) ++ evs2)),
        true, (evs ++ evs2)%list.
      rewrite omap_app, Hq, Hq2, <- !app_assoc. auto.
  - match goal with
    | |- context [h e ?f1] =>
        destruct (silent_run proj (h e) f1 (Hh e)) as (r2 & l2 & w2 & evs2 & Hrun2 & Hq2)
    end.
    rewrite Hrun2. cbn [trace] in *.
    exists r2, (Frame l2 w2 ((trace f ++ [EvCall c false]) ++ evs2)), false, evs2.
    rewrite <- app_assoc. auto.
Qed.

(** The loop body logs the read of the title of its item and then nothing
    that [proj] retains. *)
Lemma process_item_emits (self : AlibabaScraper D) (i : nat) (item : Locator D)
    (f : frame D (list record)) :
  exists r f' ok evs,
    process_item self i item f = (r, f') /\
    trace f' =
      (trace f ++ EvCall (CTextContent item (selector "product_title")) ok :: evs)%list /\
    omap proj evs = [].
Proof.
  unfold process_item, process_item_try, text_content at 1.
  apply try_except_first_call.
  - intros title. unfold append_product. unfold_calls.
    silent_with ltac:(apply extract_details_silent).
  - intros e. silent_with fail.
Qed.

End SilentMethods.

(** The loop body never raises, and it leaves [products_data] as it was or
    with one record more. *)
Lemma process_item_try_locals {D} (self : AlibabaScraper D) (i : nat) (item : Locator D)
    (f f' : frame D (list record)) (r : outcome unit) :
  process_item_try self i item f = (r, f') ->
  match r with
  | Raise _ => locals f' = locals f
  | Ret _ =>
      locals f' = locals f \/
      exists rec w,
        locals f' = (locals f ++ [rec])%list /\
        returned_record (context_available self w) rec
  end.
Proof.
  destruct (locator_text_content D item (selector "product_title") 3000 (world f))
    as [[t|e] w1] eqn:Ht.
  2:{ unfold process_item_try. unfold_run. rewrite Ht. intros [= <- <-]. reflexivity. }
  destruct (locator_text_content D item (selector "product_company_summary") 3000 w1)
    as [[c|e] w2] eqn:Hc.
  2:{ unfold process_item_try. unfold_run. rewrite Ht. simpl_run. rewrite Hc.
      intros [= <- <-]. reflexivity. }
  destruct (locator_get_attribute D item (selector "product_link") "href" 3000 w2)
    as [[h|e] w3] eqn:Hh.
  2:{ unfold process_item_try. unfold_run. rewrite Ht. simpl_run. rewrite Hc.
      simpl_run. rewrite Hh. intros [= <- <-]. reflexivity. }
  destruct (process_item_try_spec self i item f _ _ _ _ _ _ Ht Hc Hh)
    as (r0 & f0 & Hrun & Hcases).
  rewrite Hrun. intros [= <- <-].
  destruct (accepted_url h) as [u|] eqn:Hu.
  - destruct Hcases as [(e & ? & ? & ? & -> & Hl & _) | (-> & rec & Hl & Hf & Hurl)];
      [exact Hl|].
    right. exists rec, w3. split; [exact Hl|].
    exists t, c, u. eauto using accepted_url_startswith_http.
  - destruct Hcases as (-> & Hl & _). auto.
Qed.

Lemma process_item_returns {D} (self : AlibabaScraper D) (i : nat) (item : Locator D)
    (f : frame D (list record)) :
  exists f',
    process_item self i item f = (Ret tt, f') /\
    (locals f' = locals f \/
     exists rec w,
       locals f' = (locals f ++ [rec])%list /\
       returned_record (context_available self w) rec).
Proof.
  unfold process_item, try_except.
  destruct (process_item_try self i item f) as [[[]|e] f1] eqn:E;
    apply process_item_try_locals in E.
  - eauto.
  - unfold print, log. eexists. split; [reflexivity|]. auto.
Qed.

(** When the [try] block of the loop body raises, the loop body logs the
    error and returns, with [products_data] as it was. *)
Lemma process_item_failure {D} (self : AlibabaScraper D) (i : nat) (item : Locator D)
    (f f1 : frame D (list record)) (e : exn) :
  process_item_try self i item f = (Raise e, f1) ->
  locals f1 = locals f /\
  process_item self i item f =
    (Ret tt,
     Frame (locals f) (world f1) (trace f1 ++ [EvPrint (MsgItemError (i + 1) e)])).
Proof.
  intros Htry. pose proof (process_item_try_locals _ _ _ _ _ _ Htry) as Hl.
  split; [exact Hl|].
  unfold process_item, try_except. rewrite Htry. unfold print, log. rewrite Hl.
  reflexivity.
Qed.

(** ** The loop over the result items *)

(** The loop never raises and never loses a record. *)
Lemma for_items_returns {D} (self : AlibabaScraper D) (items : list (Locator D)) :
  forall (i : nat) (f : frame D (list record)),
  exists f' added,
    for_items self i items f = (Ret tt, f') /\
    locals f' = (locals f ++ added)%list /\
    Forall (fun rec => exists w, returned_record (context_available self w) rec) added.
Proof.
  induction items as [|item rest IH]; intros i f; cbn [for_items].
  - exists f, []. rewrite app_nil_r. repeat split. constructor.
  - destruct (Nat.leb 5 i).
    + eexists. exists []. split; [reflexivity|]. cbn [locals]. rewrite app_nil_r.
      split; [reflexivity | constructor].
    + destruct (process_item_returns self i item f) as (f1 & Hrun & Hl).
      destruct (IH (S i) f1) as (f2 & added & Hrest & Hl2 & Hall).
      unfold bind. rewrite Hrun, Hrest.
      destruct Hl as [Hl | (rec & w & Hl & Hrec)].
      * exists f2, added. rewrite Hl2, Hl. auto.
      * exists f2, (rec :: added). rewrite Hl2, Hl, <- app_assoc.
        split; [reflexivity|]. split; [reflexivity|]. constructor; eauto.
Qed.

(** The loop over a list is the loop over its beginning, then over its end,
    as long as the beginning stays under the cap. *)
Lemma for_items_app {D} (self : AlibabaScraper D) (before after : list (Locator D)) :
  forall (i : nat) (f fk : frame D (list record)),
  (i + length before <= 5)%nat ->
  for_items self i before f = (Ret tt, fk) ->
  for_items self i (before ++ after) f = for_items self (i + length before) after fk.
Proof.
  induction before as [|item rest IH]; intros i f fk Hcap; cbn [for_items app length].
  - unfold ret. intros [= <-]. rewrite Nat.add_0_r. reflexivity.
  - cbn [length] in Hcap.
    destruct (Nat.leb_spec 5 i); [lia|].
    destruct (process_item_returns self i item f) as (f1 & Hrun & _).
    unfold bind. rewrite Hrun. intros Hrest.
    rewrite (IH (S i) f1 fk) by (lia || assumption).
    f_equal. lia.
Qed.

(** The items whose processing the loop begins, under the cap: all of them,
    in order. *)
Lemma for_items_processed {D} (self : AlibabaScraper D) (items : list (Locator D)) :
  forall (i : nat) (f : frame D (list record)),
  (i + length items <= 5)%nat ->
  exists f',
    for_items self i items f = (Ret tt, f') /\
    processed_items (trace f') = (processed_items (trace f) ++ items)%list.
Proof.
  induction items as [|item rest IH]; intros i f Hcap; cbn [for_items length] in *.
  - exists f. rewrite app_nil_r. auto.
  - destruct (Nat.leb_spec 5 i); [lia|].
    destruct (process_item_returns self i item f) as (f1 & Hrun & _).
    destruct (process_item_emits reads_title (fun _ H => H) self i item f)
      as (r & f1' & ok & evs & Hrun' & Htr & Hq).
    rewrite Hrun in Hrun'. injection Hrun' as <- <-.
    destruct (IH (S i) f1) as (f2 & Hrest & Hproc); [lia|].
    exists f2. unfold bind. rewrite Hrun. split; [exact Hrest|].
    rewrite Hproc, Htr. unfold processed_items.
    rewrite omap_app. change (omap reads_title (?ev :: evs))
      with (match reads_title ev with
            | Some l => l :: omap reads_title evs
            | None => omap reads_title evs
            end).
    cbn [reads_title]. rewrite String.eqb_refl, Hq.
    rewrite <- app_assoc. reflexivity.
Qed.

(** C4.  Partial-failure isolation in the result-list parser.  (1) The loop
    over the result items never raises and only ever appends to the records
    gathered so far.  (2) When the processing of an item fails (the [try]
    block of the loop body raises, at whatever step), the loop goes on with
    the items after it, from the records the items before it produced: the
    failed item adds nothing and removes nothing, and the records of the
    other items come in the order of the items.  (3) Once the items are
    enumerated, the parser returns the records the loop gathered. *)
Theorem partial_failure_isolation {D} (self : AlibabaScraper D) :
  (forall i items (f : frame D (list record)),
      exists f' added,
        for_items self i items f = (Ret tt, f') /\
        locals f' = (locals f ++ added)%list) /\
  (forall i before item after (f fk f1 : frame D (list record)) e,
      (i + length before < 5)%nat ->
      for_items self i before f = (Ret tt, fk) ->
      process_item_try self (i + length before) item fk = (Raise e, f1) ->
      exists f' added,
        for_items self i (before ++ item :: after) f = (Ret tt, f') /\
        for_items self (S (i + length before)) after
          (Frame (locals fk) (world f1)
             (trace f1 ++ [EvPrint (MsgItemError (i + length before + 1) e)]))
          = (Ret tt, f') /\
        locals f' = (locals fk ++ added)%list) /\
  (forall page (f : frame D (list record)) w1 items w2,
      page_wait_for_selector D page (selector "product_item") 15000 (world f)
        = (Ret tt, w1) ->
      page_locator_all D page (selector "product_item") w1 = (Ret items, w2) ->
      exists f0 f',
        locals f0 = [] /\ world f0 = w2 /\
        for_items self 0 items f0 = (Ret tt, f') /\
        _parse_search_results self page f = (Ret (locals f'), f')).
Proof.
  split; [|split].
  - intros i items f.
    destruct (for_items_returns self items i f) as (f' & added & Hrun & Hl & _).
    eauto.
  - intros i before item after f fk f1 e Hcap Hbefore Htry.
    destruct (process_item_failure _ _ _ _ _ _ Htry) as [Hl Hitem].
    rewrite (for_items_app self before (item :: after) i f fk) by (lia || assumption).
    cbn [for_items]. destruct (Nat.leb_spec 5 (i + length before)); [lia|].
    unfold bind. rewrite Hitem.
    match goal with
    | |- context [for_items self ?j after ?g] =>
        destruct (for_items_returns self after j g) as (f' & added & Hrun & Hl' & _)
    end.
    exists f', added. cbn [locals] in Hl'. auto.
  - intros page f w1 items w2 Hwait Hall.
    unfold _parse_search_results. unfold_run. rewrite Hwait. simpl_run.
    rewrite Hall. simpl_run.
    match goal with
    | |- context [for_items self 0 items ?g] =>
        destruct (for_items_returns self items 0 g) as (f' & added & Hrun & _);
        exists g, f'
    end.
    rewrite Hrun. destruct f'. auto.
Qed.

(** C6.  The cap of five.  On a results page with more than five items the
    loop does what it does on the first five alone, then prints that it
    limits the extraction and stops: records, world and log are those of the
    first five items, whatever the other items are, and the items whose
    processing began are the first five, in document order. *)
Theorem result_cap {D} (self : AlibabaScraper D) (items : list (Locator D))
    (f : frame D (list record)) :
  (5 < length items)%nat ->
  exists f5 f',
    for_items self 0 (firstn 5 items) f = (Ret tt, f5) /\
    for_items self 0 items f = (Ret tt, f') /\
    locals f' = locals f5 /\
    world f' = world f5 /\
    trace f' = (trace f5 ++ [EvPrint MsgLimit])%list /\
    processed_items (trace f') = (processed_items (trace f) ++ firstn 5 items)%list.
Proof.
  intros Hlen.
  assert (Hfirst : length (firstn 5 items) = 5%nat) by (rewrite length_firstn; lia).
  destruct (for_items_processed self (firstn 5 items) 0 f) as (f5 & Hrun & Hproc);
    [lia|].
  exists f5. eexists. split; [exact Hrun|].
  rewrite <- (firstn_skipn 5 items) at 1.
  rewrite (for_items_app self _ _ 0 f f5) by (lia || assumption).
  rewrite Hfirst. cbn [Nat.add].
  destruct (skipn 5 items) as [|item rest] eqn:Hskip.
  - apply (f_equal (@length _)) in Hskip. rewrite length_skipn in Hskip.
    cbn [length] in Hskip. lia.
  - cbn [for_items Nat.leb]. unfold print, log.
    split; [reflexivity|]. cbn [locals world trace].
    repeat split. unfold processed_items in *. rewrite omap_app, Hproc.
    cbn. rewrite app_nil_r. reflexivity.
Qed.

(** ** The parser does not read the log *)

Lemma nothing_drops {D} (ev : event D) : reads_title ev = None -> nothing ev = None.
Proof. reflexivity. Qed.

Lemma process_item_silent {D} (self : AlibabaScraper D) (i : nat) (item : Locator D) :
  silent nothing (process_item self i item).
Proof.
  unfold process_item, process_item_try, append_product. unfold_calls.
  silent_with ltac:(apply extract_details_silent, nothing_drops).
Qed.

Lemma for_items_silent {D} (self : AlibabaScraper D) (items : list (Locator D)) :
  forall i, silent nothing (for_items self i items).
Proof.
  induction items as [|item rest IH]; intros i; cbn [for_items].
  - apply silent_ret.
  - destruct (Nat.leb 5 i).
    + apply silent_print. reflexivity.
    + apply silent_bind; [apply process_item_silent | intros _; apply IH].
Qed.

Lemma parse_search_results_silent {D} (self : AlibabaScraper D) (page : Page D) :
  silent nothing (_parse_search_results self page).
Proof.
  unfold _parse_search_results. unfold_calls.
  silent_with ltac:(apply for_items_silent).
Qed.

Ltac run_parser :=
  match goal with
  | |- context [_parse_search_results ?self ?page (Frame ?l ?w _)] =>
      let Hrun := fresh "Hparse" in
      destruct (parse_search_results_silent self page l w)
        as ([?|?] & ? & ? & ? & _ & Hrun);
      rewrite !Hrun; simpl_run
  end.

(** C9.  The smart-search flag.  For the same query, from the same state of
    the browser, [search_by_text] with [use_smart_search] set returns what it
    returns with the flag unset (the same records or the same exception) and
    leaves the browser in the same state; all the flag does is to print a
    note, so the two logs are equal once that note is left out. *)
Theorem smart_search_flag_is_inert {D} (self : AlibabaScraper D) (search_query : string)
    (f : frame D unit) :
  fst (search_by_text self search_query true f)
    = fst (search_by_text self search_query false f) /\
  world (snd (search_by_text self search_query true f))
    = world (snd (search_by_text self search_query false f)) /\
  without_note (trace (snd (search_by_text self search_query true f)))
    = without_note (trace (snd (search_by_text self search_query false f))).
Proof.
  unfold search_by_text, _get_new_page, search_by_text_try.
  destruct (_browser self) as [browser|]; unfold_run; [|auto].
  split_call; [|auto].
  repeat (first [skip_popups | run_parser | split_call]);
    repeat split; try reflexivity;
    unfold without_note; rewrite !List.filter_app;
    cbn [List.filter negb is_smart_search_note];
    rewrite ?app_nil_r; reflexivity.
Qed.

(** ** The two searches *)

(** A call that never raises did not raise; one that always raises did. *)
Ltac absurd_call :=
  match goal with
  | H : never_raises ?op, E : ?op ?w = (Raise _, _) |- _ =>
      specialize (H w); rewrite E in H; discriminate H
  | H : forall p, never_raises (?op p), E : ?op ?p0 ?w = (Raise _, _) |- _ =>
      specialize (H p0 w); rewrite E in H; discriminate H
  | H : forall p, never_raises (?op p ?a), E : ?op ?p0 ?a ?w = (Raise _, _) |- _ =>
      specialize (H p0 w); rewrite E in H; discriminate H
  | H : forall p q, never_raises (?op p q), E : ?op ?p0 ?q0 ?w = (Raise _, _) |- _ =>
      specialize (H p0 q0 w); rewrite E in H; discriminate H
  | H : forall p, always_raises (?op p ?a ?b), E : ?op ?p0 ?a ?b ?w = (Ret _, _) |- _ =>
      specialize (H p0 w); rewrite E in H; discriminate H
  end.

(** C2 (as amended).  Let the scraper be entered, and let three calls of the
    operation itself never raise: opening its page, the screenshot of its own
    [except] clause, closing its page.  Then [search_by_text] and
    [search_by_image] return a list, whatever else fails; and when a step of
    the flow raises, that list is empty and the operation ends by logging the
    error, taking the screenshot and closing the page. *)
Theorem search_returns_a_list {D} (self : AlibabaScraper D) (browser : Browser D)
    (f : frame D unit) :
  _browser self = Some browser ->
  never_raises (browser_new_page D browser) ->
  (forall p, never_raises (page_screenshot D p "error_text_search_page.png")) ->
  (forall p, never_raises (page_screenshot D p "error_image_search_page.png")) ->
  (forall p, never_raises (page_close D p)) ->
  (forall search_query use_smart_search,
      exists rs, fst (search_by_text self search_query use_smart_search f) = Ret rs) /\
  (forall image_path,
      exists rs, fst (search_by_image self image_path f) = Ret rs) /\
  (forall search_query use_smart_search page w1 e f1,
      browser_new_page D browser (world f) = (Ret page, w1) ->
      search_by_text_try self page search_query use_smart_search
        (Frame tt w1 (trace f ++ [EvCall CBrowserNewPage true])) = (Raise e, f1) ->
      exists w3,
        search_by_text self search_query use_smart_search f =
          (Ret [],
           Frame (locals f1) w3
             (trace f1 ++
                [EvPrint (MsgTextError e);
                 EvCall (CScreenshot page "error_text_search_page.png") true;
                 EvCall (CClose page) true]))) /\
  (forall image_path page w1 e f1,
      browser_new_page D browser (world f) = (Ret page, w1) ->
      search_by_image_try self page image_path
        (Frame tt w1 (trace f ++ [EvCall CBrowserNewPage true])) = (Raise e, f1) ->
      exists w3,
        search_by_image self image_path f =
          (Ret [],
           Frame (locals f1) w3
             (trace f1 ++
                [EvPrint (MsgImageError e);
                 EvCall (CScreenshot page "error_image_search_page.png") true;
                 EvCall (CClose page) true]))).
Proof.
  destruct f as [[] w_in tr_in]. cbn [world trace].
  intros Hb Hnew Hshot_text Hshot_image Hclose.
  repeat split.
  - intros q flag. unfold search_by_text, _get_new_page. rewrite Hb. unfold_run.
    split_call; [|absurd_call].
    repeat split_call; try absurd_call; eauto.
  - intros path. unfold search_by_image, _get_new_page. rewrite Hb. unfold_run.
    split_call; [|absurd_call].
    repeat split_call; try absurd_call; eauto.
  - intros q flag page w1 e f1 Hpage Htry.
    unfold search_by_text, _get_new_page. rewrite Hb. unfold_run.
    rewrite Hpage. simpl_run. rewrite Htry.
    repeat split_call; try absurd_call.
    destruct a, a0. rewrite <- !app_assoc. eauto.
  - intros path page w1 e f1 Hpage Htry.
    unfold search_by_image, _get_new_page. rewrite Hb. unfold_run.
    rewrite Hpage. simpl_run. rewrite Htry.
    repeat split_call; try absurd_call.
    destruct a, a0. rewrite <- !app_assoc. eauto.
Qed.

(** The parser when no result item ever appears: if it returns, it returns
    no record, and the last thing it did was to take its screenshot. *)
Lemma parse_search_results_no_items {D} (self : AlibabaScraper D) (page : Page D)
    (f f' : frame D (list record)) (r : outcome (list record)) :
  always_raises (page_wait_for_selector D page (selector "product_item") 15000) ->
  _parse_search_results self page f = (r, f') ->
  exists tr ok,
    trace f' =
      (tr ++ [EvCall (CScreenshot page "error_search_results_no_items.png") ok])%list /\
    match r with
    | Ret rs => rs = [] /\ ok = true
    | Raise _ => ok = false
    end.
Proof.
  intros Hwait. unfold _parse_search_results. unfold_run.
  split_call.
  - specialize (Hwait (world f)). rewrite Ecall in Hwait. discriminate Hwait.
  - split_call; intros [= <- <-]; simpl_run; eauto.
Qed.

(** Runs a search whose parser finds no item, to its last two events. *)
Ltac search_without_items Hwait :=
  repeat (first
            [ skip_popups
            | match goal with
              | |- context [_parse_search_results ?s ?p ?g] =>
                  let E := fresh "Eparse" in
                  let Htr := fresh "Htr" in
                  destruct (_parse_search_results s p g) as [[?|?] ?] eqn:E;
                  destruct (parse_search_results_no_items s p g _ _ (Hwait p) E)
                    as (? & ? & Htr & ?);
                  simpl_run; rewrite ?Htr
              end
            | split_call ]);
  try absurd_call;
  repeat match goal with
         | H : _ /\ _ |- _ => destruct H
         end; subst;
  (split; [reflexivity|]);
  rewrite <- ?app_assoc; cbn [app];
  repeat match goal with
         | |- context [(?a ++ ?b :: ?c :: ?d :: ?e)%list] =>
             change (a ++ b :: c :: d :: e)%list with (a ++ [b] ++ c :: d :: e)%list;
             rewrite (app_assoc a [b])
         end;
  eauto.

(** C5 (as amended).  No result item before the timeout.  (1) In the
    result-list parser: when the wait for a result item raises, the parser
    logs it and takes the screenshot [error_search_results_no_items.png]; if
    the screenshot returns, the parser returns the empty list.  (2) In the
    two searches, on an entered scraper: when no result item ever appears,
    and opening the page, the screenshot of the operation's own [except]
    clause and closing the page never raise, the operation returns the empty
    list, and the last two things it did were to take a screenshot, with
    success, and to close its page. *)
Theorem no_items_empty_result {D} (self : AlibabaScraper D) :
  (forall page (f : frame D (list record)) e w1 w2,
      page_wait_for_selector D page (selector "product_item") 15000 (world f)
        = (Raise e, w1) ->
      page_screenshot D page "error_search_results_no_items.png" w1 = (Ret tt, w2) ->
      _parse_search_results self page f =
        (Ret [],
         Frame [] w2
           (trace f ++
              [EvCall (CWaitForSelector page (selector "product_item")) false;
               EvPrint (MsgNoItems e);
               EvCall (CScreenshot page "error_search_results_no_items.png") true]))) /\
  (forall browser (f : frame D unit),
      _browser self = Some browser ->
      never_raises (browser_new_page D browser) ->
      (forall p, always_raises (page_wait_for_selector D p (selector "product_item") 15000)) ->
      (forall p, never_raises (page_screenshot D p "error_text_search_page.png")) ->
      (forall p, never_raises (page_screenshot D p "error_image_search_page.png")) ->
      (forall p, never_raises (page_close D p)) ->
      (forall search_query use_smart_search,
          fst (search_by_text self search_query use_smart_search f) = Ret [] /\
          exists tr p path,
            trace (snd (search_by_text self search_query use_smart_search f)) =
              (tr ++ [EvCall (CScreenshot p path) true; EvCall (CClose p) true])%list) /\
      (forall image_path,
          fst (search_by_image self image_path f) = Ret [] /\
          exists tr p path,
            trace (snd (search_by_image self image_path f)) =
              (tr ++ [EvCall (CScreenshot p path) true; EvCall (CClose p) true])%list)).
Proof.
  split.
  - intros page f e w1 w2 Hwait Hshot.
    unfold _parse_search_results. unfold_run. rewrite Hwait. simpl_run.
    rewrite Hshot. simpl_run. rewrite <- !app_assoc. reflexivity.
  - intros browser [[] w_in tr_in] Hb Hnew Hwait Hshot_text Hshot_image Hclose.
    split.
    + intros q flag. unfold search_by_text, _get_new_page, search_by_text_try.
      rewrite Hb. destruct flag; unfold_run.
      all: split_call; [|absurd_call].
      all: search_without_items Hwait.
    + intros path. unfold search_by_image, _get_new_page, search_by_image_try.
      rewrite Hb. unfold_run.
      split_call; [|absurd_call].
      search_without_items Hwait.
Qed.

(** C8 (as amended).  A screenshot that fails is not caught where it is
    taken: the exception leaves the [except] clause that took it.  (1) In the
    detail extractor it leaves the extractor, once the page is closed;
    (2) there the loop body of the parser catches it, as it catches any
    failure of its [try] block, and the item is skipped.  (3) In the parser,
    when no result item appeared, it leaves the parser.  (4, 5) In the
    [except] clause of [search_by_text] and of [search_by_image] it reaches the
    caller, once the page is closed. *)
Theorem screenshot_failure_propagates {D} (self : AlibabaScraper D) :
  (forall product_url context (f : frame D (details_locals D)) e f1 page e' w2 w3,
      extract_details_try self product_url context
        (Frame (DetailsLocals None (initial_details product_url)) (world f) (trace f))
        = (Raise e, f1) ->
      product_page (locals f1) = Some page ->
      page_screenshot D page (error_product_page_path product_url) (world f1)
        = (Raise e', w2) ->
      page_close D page w2 = (Ret tt, w3) ->
      fst (_extract_product_details_from_product_page self product_url context f)
        = Raise e') /\
  (forall i item (f f1 : frame D (list record)) e,
      process_item_try self i item f = (Raise e, f1) ->
      exists f', process_item self i item f = (Ret tt, f') /\ locals f' = locals f) /\
  (forall page (f : frame D (list record)) e w1 e' w2,
      page_wait_for_selector D page (selector "product_item") 15000 (world f)
        = (Raise e, w1) ->
      page_screenshot D page "error_search_results_no_items.png" w1 = (Raise e', w2) ->
      fst (_parse_search_results self page f) = Raise e') /\
  (forall browser search_query use_smart_search (f : frame D unit) page w1 e f1 e' w2 w3,
      _browser self = Some browser ->
      browser_new_page D browser (world f) = (Ret page, w1) ->
      search_by_text_try self page search_query use_smart_search
        (Frame (locals f) w1 (trace f ++ [EvCall CBrowserNewPage true])) = (Raise e, f1) ->
      page_screenshot D page "error_text_search_page.png" (world f1) = (Raise e', w2) ->
      page_close D page w2 = (Ret tt, w3) ->
      fst (search_by_text self search_query use_smart_search f) = Raise e') /\
  (forall browser image_path (f : frame D unit) page w1 e f1 e' w2 w3,
      _browser self = Some browser ->
      browser_new_page D browser (world f) = (Ret page, w1) ->
      search_by_image_try self page image_path
        (Frame (locals f) w1 (trace f ++ [EvCall CBrowserNewPage true])) = (Raise e, f1) ->
      page_screenshot D page "error_image_search_page.png" (world f1) = (Raise e', w2) ->
      page_close D page w2 = (Ret tt, w3) ->
      fst (search_by_image self image_path f) = Raise e').
Proof.
  repeat split.
  - intros product_url context f e f1 page e' w2 w3 Htry Hpage Hshot Hclose.
    unfold _extract_product_details_from_product_page,
      extract_details_except, extract_details_finally.
    unfold_run. rewrite Htry. simpl_run.
    rewrite Hpage. simpl_run. rewrite Hshot. simpl_run.
    rewrite Hpage. simpl_run. rewrite Hclose. reflexivity.
  - intros i item f f1 e Htry.
    destruct (process_item_failure _ _ _ _ _ _ Htry) as [_ Hrun].
    rewrite Hrun. eauto.
  - intros page f e w1 e' w2 Hwait Hshot.
    unfold _parse_search_results. unfold_run. rewrite Hwait. simpl_run.
    rewrite Hshot. reflexivity.
  - intros browser q flag f page w1 e f1 e' w2 w3 Hb Hpage Htry Hshot Hclose.
    unfold search_by_text, _get_new_page. rewrite Hb. unfold_run.
    rewrite Hpage. simpl_run. rewrite Htry. simpl_run.
    rewrite Hshot. simpl_run. rewrite Hclose. reflexivity.
  - intros browser path f page w1 e f1 e' w2 w3 Hb Hpage Htry Hshot Hclose.
    unfold search_by_image, _get_new_page. rewrite Hb. unfold_run.
    rewrite Hpage. simpl_run. rewrite Htry. simpl_run.
    rewrite Hshot. simpl_run. rewrite Hclose. reflexivity.
Qed.

(** ** The records the searches return *)

Lemma parse_search_results_records {D} (self : AlibabaScraper D) (page : Page D)
    (f f' : frame D (list record)) (rs : list record) :
  _parse_search_results self page f = (Ret rs, f') ->
  Forall (fun rec => exists w, returned_record (context_available self w) rec) rs.
Proof.
  unfold _parse_search_results. unfold_run.
  repeat (first
            [ match goal with
              | |- context [for_items self 0 ?items ?g] =>
                  let Hrun := fresh "Hrun" in
                  destruct (for_items_returns self items 0 g)
                    as (? & ? & Hrun & ? & ?);
                  rewrite Hrun; simpl_run
              end
            | split_call ]);
    intros Hres; (discriminate Hres || injection Hres as <- <-); try constructor.
  cbn [locals app] in *. congruence.
Qed.

(** C10 (as amended).  (1) Merging what the detail extractor returned into
    the summary record leaves [title], [company_summary] and
    [product_page_url] as the results page gave them and stores the URL under
    ["url"] as well.  (2, 3) Every record that [search_by_text] or
    [search_by_image] returns holds these three fields, with a
    [product_page_url] that begins with [http]; it holds the same URL under
    ["url"] when a browser context was available for its item, so that the
    merge took place, and has no key ["url"] otherwise.  (4) When a browser
    context is always available, every returned record carries the URL under
    both keys. *)
Theorem records_carry_summary_and_url {D} (self : AlibabaScraper D) :
  (forall title company_summary product_url context
          (f f' : frame D (details_locals D)) full_details,
      _extract_product_details_from_product_page self product_url context f
        = (Ret full_details, f') ->
      let merged :=
        update (product_summary_of title company_summary product_url) full_details in
      summary_fields title company_summary product_url merged /\
      merged !! "url" = Some (PyStr product_url)) /\
  (forall search_query use_smart_search (f f' : frame D unit) rs,
      search_by_text self search_query use_smart_search f = (Ret rs, f') ->
      Forall (fun r => exists w, returned_record (context_available self w) r) rs) /\
  (forall image_path (f f' : frame D unit) rs,
      search_by_image self image_path f = (Ret rs, f') ->
      Forall (fun r => exists w, returned_record (context_available self w) r) rs) /\
  ((forall w, context_available self w = true) ->
   (forall search_query use_smart_search (f f' : frame D unit) rs,
       search_by_text self search_query use_smart_search f = (Ret rs, f') ->
       Forall (returned_record true) rs) /\
   (forall image_path (f f' : frame D unit) rs,
       search_by_image self image_path f = (Ret rs, f') ->
       Forall (returned_record true) rs)).
Proof.
  assert (Htext : forall q flag (f f' : frame D unit) rs,
             search_by_text self q flag f = (Ret rs, f') ->
             Forall (fun r => exists w, returned_record (context_available self w) r) rs).
  { intros q flag f f' rs. unfold search_by_text, _get_new_page, search_by_text_try.
    destruct (_browser self); destruct flag; unfold_run.
    all: repeat (first
                   [ skip_popups
                   | match goal with
                     | |- context [_parse_search_results ?s ?p ?g] =>
                         let E := fresh "Eparse" in
                         destruct (_parse_search_results s p g) as [[?|?] ?] eqn:E;
                         [apply parse_search_results_records in E|]; simpl_run
                     end
                   | split_call ]);
      intros Hres; (discriminate Hres || injection Hres as <- <-);
      (assumption || constructor). }
  assert (Himage : forall path (f f' : frame D unit) rs,
             search_by_image self path f = (Ret rs, f') ->
             Forall (fun r => exists w, returned_record (context_available self w) r) rs).
  { intros path f f' rs. unfold search_by_image, _get_new_page, search_by_image_try.
    destruct (_browser self); unfold_run.
    all: repeat (first
                   [ skip_popups
                   | match goal with
                     | |- context [_parse_search_results ?s ?p ?g] =>
                         let E := fresh "Eparse" in
                         destruct (_parse_search_results s p g) as [[?|?] ?] eqn:E;
                         [apply parse_search_results_records in E|]; simpl_run
                     end
                   | split_call ]);
      intros Hres; (discriminate Hres || injection Hres as <- <-);
      (assumption || constructor). }
  split; [|split; [exact Htext | split; [exact Himage|]]].
  - intros t c u context f f' d Hrun merged.
    apply merged_summary_fields. eapply extract_details_returns, Hrun.
  - intros Hctx. split.
    + intros q flag f f' rs Hrun. apply Htext in Hrun.
      eapply Forall_impl; [exact Hrun|]. cbn beta.
      intros r [w Hr]. rewrite Hctx in Hr. exact Hr.
    + intros path f f' rs Hrun. apply Himage in Hrun.
      eapply Forall_impl; [exact Hrun|]. cbn beta.
      intros r [w Hr]. rewrite Hctx in Hr. exact Hr.
Qed.

(** ** Where the parser navigates *)

Lemma navigations_all_http {D} (evs : list (event D)) :
  omap bad_navigation evs = [] ->
  Forall (fun url => startswith url "http" = true) (navigations evs).
Proof.
  unfold navigations. induction evs as [|ev evs IH].
  - constructor.
  - change (omap bad_navigation (ev :: evs))
      with (match bad_navigation ev with
            | Some u => u :: omap bad_navigation evs
            | None => omap bad_navigation evs
            end).
    change (omap navigation (ev :: evs))
      with (match navigation ev with
            | Some u => u :: omap navigation evs
            | None => omap navigation evs
            end).
    destruct ev as [[] ok|]; cbn [bad_navigation navigation]; auto.
    destruct (startswith url "http") eqn:E; [|discriminate].
    intros H. constructor; auto.
Qed.

Lemma close_initial_popups_navigation {D} (self : AlibabaScraper D) (page : Page D) :
  silent bad_navigation (_close_initial_popups self page).
Proof.
  unfold _close_initial_popups. unfold_calls. silent_with fail.
Qed.

Lemma extract_details_navigation {D} (self : AlibabaScraper D) (product_url : string)
    (context : Context D) :
  startswith product_url "http" = true ->
  silent bad_navigation
    (_extract_product_details_from_product_page self product_url context).
Proof.
  intros Hurl.
  unfold _extract_product_details_from_product_page, extract_details_try,
    extract_details_except, extract_details_finally.
  unfold_calls.
  silent_with ltac:(first
                      [ apply close_initial_popups_navigation
                      | apply silent_invoke; intros ?; cbn [bad_navigation];
                        rewrite Hurl; reflexivity ]).
Qed.

Lemma process_item_navigation {D} (self : AlibabaScraper D) (i : nat) (item : Locator D) :
  silent bad_navigation (process_item self i item).
Proof.
  unfold process_item, process_item_try, append_product. unfold_calls.
  silent_with ltac:(apply extract_details_navigation;
                    match goal with
                    | H : negb ?b = false |- ?b = true =>
                        destruct b; [reflexivity | discriminate H]
                    end).
Qed.

Lemma for_items_navigation {D} (self : AlibabaScraper D) (items : list (Locator D)) :
  forall i, silent bad_navigation (for_items self i items).
Proof.
  induction items as [|item rest IH]; intros i; cbn [for_items].
  - apply silent_ret.
  - destruct (Nat.leb 5 i).
    + apply silent_print. reflexivity.
    + apply silent_bind; [apply process_item_navigation | intros _; apply IH].
Qed.

Lemma parse_search_results_navigation {D} (self : AlibabaScraper D) (page : Page D) :
  silent bad_navigation (_parse_search_results self page).
Proof.
  unfold _parse_search_results. unfold_calls.
  silent_with ltac:(apply for_items_navigation).
Qed.

(** C1 (as amended).  URL normalisation in the result-list parser.  For a
    link attribute [s]: beginning with [//] it becomes [https:] and [s];
    beginning with one slash only it becomes the site origin and [s];
    beginning with [http] (so any [http://] or [https://] address, but also
    any other string with these four letters first) it is kept as it is; in
    every other form, and when it is empty or missing, it is rejected.  An
    accepted URL begins with [http].  A rejected link makes the loop body skip
    its item.  Every URL the parser navigates to begins with [http]. *)
Theorem url_normalization_rule {D} (self : AlibabaScraper D) :
  (forall s,
      (startswith s "//" = true ->
       accepted_url (Some s) = Some ("https:" +:+ s)) /\
      (startswith s "/" = true -> startswith s "//" = false ->
       accepted_url (Some s) = Some (site_origin +:+ s)) /\
      (startswith s "http" = true -> accepted_url (Some s) = Some s) /\
      (startswith s "/" = false -> startswith s "http" = false ->
       accepted_url (Some s) = None) /\
      (forall u, accepted_url (Some s) = Some u -> startswith u "http" = true)) /\
  accepted_url None = None /\
  (forall i item (f : frame D (list record)) t w1 c w2 h w3,
      locator_text_content D item (selector "product_title") 3000 (world f)
        = (Ret t, w1) ->
      locator_text_content D item (selector "product_company_summary") 3000 w1
        = (Ret c, w2) ->
      locator_get_attribute D item (selector "product_link") "href" 3000 w2
        = (Ret h, w3) ->
      accepted_url h = None ->
      exists f', process_item self i item f = (Ret tt, f') /\ locals f' = locals f) /\
  (forall page (f : frame D (list record)),
      exists evs,
        trace (snd (_parse_search_results self page f)) = (trace f ++ evs)%list /\
        Forall (fun url => startswith url "http" = true) (navigations evs)).
Proof.
  split; [|split; [reflexivity | split]].
  - intros s. repeat split.
    + intros H. unfold accepted_url, normalize_url.
      rewrite (nonempty_of_startswith _ _ _ H), H. reflexivity.
    + intros H1 H2. unfold accepted_url.
      rewrite (nonempty_of_startswith _ _ _ H1), (normalize_url_accepted s H1).
      unfold normalize_url. rewrite H2, H1. reflexivity.
    + intros H. destruct (startswith_slash_not_http s H) as [_ Hs].
      unfold accepted_url.
      rewrite (nonempty_of_startswith _ _ _ H), (normalize_url_other s Hs), H.
      reflexivity.
    + intros Hs H. unfold accepted_url. rewrite (normalize_url_other s Hs), H.
      destruct (String.eqb s ""); reflexivity.
    + intros u. apply accepted_url_startswith_http.
  - intros i item f t w1 c w2 h w3 Ht Hc Hh Hrej.
    destruct (process_item_try_spec self i item f _ _ _ _ _ _ Ht Hc Hh)
      as (r & f' & Hrun & Hcases).
    rewrite Hrej in Hcases. destruct Hcases as (-> & Hl & _).
    unfold process_item, try_except. rewrite Hrun. eauto.
  - intros page f.
    destruct (silent_run bad_navigation _ f (parse_search_results_navigation self page))
      as (r & l' & w' & evs & Hrun & Hq).
    exists evs. rewrite Hrun. split; [reflexivity|].
    apply navigations_all_http, Hq.
Qed.

(** ** Well-formed items *)

Lemma absolute_http_accepted (u : string) :
  absolute_http u = true -> accepted_url (Some u) = Some u.
Proof.
  unfold absolute_http. intros H.
  assert (Hhttp : startswith u "http" = true).
  { apply orb_true_iff in H as [H|H];
      repeat (apply startswith_cons in H as (? & -> & H);
              rewrite ?startswith_cons_same);
      apply startswith_nil. }
  destruct (startswith_slash_not_http u Hhttp) as [_ Hs].
  unfold accepted_url.
  rewrite (nonempty_of_startswith _ _ _ Hhttp), (normalize_url_other u Hs), Hhttp.
  reflexivity.
Qed.

(** The extractor raises only what its screenshot or the closing of its page
    raised. *)
Lemma extract_details_raise_cause {D} (self : AlibabaScraper D) (product_url : string)
    (context : Context D) (f f' : frame D (details_locals D)) (e : exn) :
  _extract_product_details_from_product_page self product_url context f = (Raise e, f') ->
  (exists p path w w', page_screenshot D p path w = (Raise e, w')) \/
  (exists p w w', page_close D p w = (Raise e, w')).
Proof.
  unfold _extract_product_details_from_product_page, extract_details_try,
    extract_details_except, extract_details_finally.
  unfold_run.
  repeat (first [skip_popups | split_call]);
    intros Hres; (discriminate Hres || injection Hres as <- <-); eauto 10.
Qed.

Section WellFormed.

Context {D : Driver} (self : AlibabaScraper D).

(** The detail extractor can always work and never raises. *)
Hypothesis context_always : forall w, context_available self w = true.
Hypothesis screenshot_returns : forall p path, never_raises (page_screenshot D p path).
Hypothesis close_returns : forall p, never_raises (page_close D p).

Lemma process_item_well_formed (i : nat) (item : Locator D) (t c u : string)
    (f : frame D (list record)) :
  well_formed_item item (t, c, u) ->
  absolute_http u = true ->
  exists f' rec,
    process_item self i item f = (Ret tt, f') /\
    locals f' = (locals f ++ [rec])%list /\
    summary_fields (Some t) (Some c) u rec /\
    rec !! "url" = Some (PyStr u).
Proof.
  intros (Ht & Hc & Hh) Habs.
  destruct (Ht (world f)) as [w1 Ht1].
  destruct (Hc w1) as [w2 Hc2].
  destruct (Hh w2) as [w3 Hh3].
  destruct (process_item_try_spec self i item f _ _ _ _ _ _ Ht1 Hc2 Hh3)
    as (r & f' & Hrun & Hcases).
  rewrite (absolute_http_accepted u Habs), context_always in Hcases.
  unfold process_item, try_except. rewrite Hrun.
  destruct Hcases as [(e & c0 & f0 & f0' & -> & _ & Hraise) | (-> & rec & Hl & Hf & Hurl)].
  - exfalso. apply extract_details_raise_cause in Hraise
      as [(p & path & w & w' & E) | (p & w & w' & E)].
    + specialize (screenshot_returns p path w). rewrite E in screenshot_returns.
      discriminate.
    + specialize (close_returns p w). rewrite E in close_returns. discriminate.
  - eauto 10.
Qed.

Lemma for_items_well_formed (items : list (Locator D))
    (fields : list (string * string * string)) :
  Forall2 well_formed_item items fields ->
  Forall (fun '(_, _, u) => absolute_http u = true) fields ->
  forall i (f : frame D (list record)),
  (i + length items <= 5)%nat ->
  exists f' rs,
    for_items self i items f = (Ret tt, f') /\
    locals f' = (locals f ++ rs)%list /\
    Forall2 (fun '(t, c, u) r =>
               summary_fields (Some t) (Some c) u r /\ r !! "url" = Some (PyStr u))
      fields rs.
Proof.
  induction 1 as [|item [[t c] u] items fields Hitem _ IH];
    intros Habs i f Hcap; cbn [for_items length] in *.
  - exists f, []. rewrite app_nil_r. repeat split. constructor.
  - inversion Habs as [|? ? Hu Hrest]; subst.
    destruct (Nat.leb_spec 5 i); [lia|].
    destruct (process_item_well_formed i item t c u f Hitem Hu)
      as (f1 & rec & Hrun & Hl & Hf & Hurl).
    destruct (IH Hrest (S i) f1) as (f2 & rs & Hloop & Hl2 & Hall); [lia|].
    exists f2, (rec :: rs). unfold bind. rewrite Hrun, Hloop, Hl2, Hl, <- app_assoc.
    split; [reflexivity|]. split; [reflexivity|]. constructor; auto.
Qed.

End WellFormed.

(** C3 (as amended).  The end-to-end scenario.  On a results page of seven
    items of which the first five are well formed, with absolute URLs, and
    with a detail extractor that can work and does not raise, the parser
    returns five records: those of items 0 to 4, in that order, each with the
    title, the company summary and the URL of its item and with the detail
    record merged in.  The cap of five ends the loop when it reaches item 5:
    items 5 and 6 are not looked at, whatever they are, so that a
    root-relative item 6 gives no record. *)
Theorem seven_items_scenario {D} (self : AlibabaScraper D) (page : Page D)
    (f : frame D (list record)) (first_five : list (Locator D)) (item5 item6 : Locator D)
    (fields : list (string * string * string)) (w1 w2 : World D) :
  length first_five = 5%nat ->
  Forall2 well_formed_item first_five fields ->
  Forall (fun '(_, _, u) => absolute_http u = true) fields ->
  (forall w, context_available self w = true) ->
  (forall p path, never_raises (page_screenshot D p path)) ->
  (forall p, never_raises (page_close D p)) ->
  page_wait_for_selector D page (selector "product_item") 15000 (world f)
    = (Ret tt, w1) ->
  page_locator_all D page (selector "product_item") w1
    = (Ret (first_five ++ [item5; item6])%list, w2) ->
  exists rs f',
    _parse_search_results self page f = (Ret rs, f') /\
    length rs = 5%nat /\
    Forall2 (fun '(t, c, u) r =>
               summary_fields (Some t) (Some c) u r /\ r !! "url" = Some (PyStr u))
      fields rs /\
    processed_items (trace f') = (processed_items (trace f) ++ first_five)%list.
Proof.
  intros Hlen Hwf Habs Hctx Hshot Hclose Hwait Hall.
  unfold _parse_search_results. unfold_run. rewrite Hwait. simpl_run.
  rewrite Hall. simpl_run.
  match goal with
  | |- context [for_items self 0 _ ?g] =>
      destruct (for_items_well_formed self Hctx Hshot Hclose first_five fields Hwf Habs 0 g)
        as (f5 & rs & Hrun & Hl & Hrs); [lia|];
      destruct (for_items_processed self first_five 0 g) as (f5' & Hrun' & Hproc); [lia|];
      rewrite Hrun in Hrun'; injection Hrun' as <-;
      rewrite (for_items_app self first_five [item5; item6] 0 g f5) by (lia || assumption)
  end.
  rewrite Hlen. cbn [for_items Nat.add Nat.leb]. unfold print, log. simpl_run.
  cbn [locals trace app] in Hl, Hproc.
  exists rs. eexists. split; [rewrite Hl; reflexivity|].
  split.
  - apply Forall2_length in Hrs. apply Forall2_length in Hwf. lia.
  - split; [exact Hrs|]. cbn [trace]. unfold processed_items in *.
    rewrite omap_app, Hproc, !omap_app. cbn. rewrite !app_nil_r. reflexivity.
Qed.

(** * More properties of the code *)

(** ** The name of a screenshot *)

Lemma append_cons (c : ascii) (s t : string) : String c s +:+ t = String c (s +:+ t).
Proof. reflexivity. Qed.

Lemma append_nil_l (s : string) : "" +:+ s = s.
Proof. reflexivity. Qed.

Lemma has_slash_app (s t : string) :
  has_slash (s +:+ t) = has_slash s || has_slash t.
Proof.
  induction s as [|c s IH]; [reflexivity|].
  rewrite append_cons. cbn [has_slash]. rewrite IH, orb_assoc. reflexivity.
Qed.

Lemma app_assoc_string (s t u : string) : (s +:+ t) +:+ u = s +:+ (t +:+ u).
Proof.
  induction s as [|c s IH]; [reflexivity|].
  rewrite !append_cons. f_equal. exact IH.
Qed.

Lemma app_nil_r_string (s : string) : s +:+ "" = s.
Proof.
  induction s as [|c s IH]; [reflexivity|].
  rewrite append_cons. f_equal. exact IH.
Qed.

(** What [last_segment_from seg s] returns when [seg] holds no slash: a
    string without a slash that ends [seg +:+ s]; what comes before it is
    empty when [s] has no slash and ends with a slash otherwise. *)
Lemma last_segment_from_spec (s seg : string) :
  has_slash seg = false ->
  has_slash (last_segment_from seg s) = false /\
  (has_slash s = false -> last_segment_from seg s = seg +:+ s) /\
  (has_slash s = true ->
   exists before, seg +:+ s = (before +:+ "/") +:+ last_segment_from seg s).
Proof.
  revert seg. induction s as [|c s IH]; intros seg Hseg;
    cbn [last_segment_from has_slash].
  - rewrite app_nil_r_string. repeat split; [exact Hseg | discriminate].
  - destruct (Ascii.eqb_spec c "/"%char) as [->|Hc]; cbn [orb].
    + destruct (IH "" eq_refl) as (Hno & Hnone & Hsome).
      split; [exact Hno|]. split; [discriminate|]. intros _.
      destruct (has_slash s) eqn:Hs.
      * destruct (Hsome eq_refl) as [before Heq]. rewrite append_nil_l in Heq.
        exists (seg +:+ "/" +:+ before).
        rewrite !app_assoc_string, !append_cons, !append_nil_l.
        rewrite app_assoc_string, append_cons, append_nil_l in Heq.
        rewrite <- Heq. reflexivity.
      * rewrite (Hnone eq_refl), append_nil_l. exists seg.
        rewrite app_assoc_string. reflexivity.
    + assert (Hseg' : has_slash (seg +:+ String c "") = false).
      { rewrite has_slash_app, Hseg. cbn [has_slash orb].
        destruct (Ascii.eqb_spec c "/"%char); [contradiction | reflexivity]. }
      destruct (IH _ Hseg') as (Hno & Hnone & Hsome).
      rewrite app_assoc_string, append_cons, append_nil_l in Hnone, Hsome.
      split; [exact Hno|]. split; assumption.
Qed.

(** X1.  [product_url.split('/')[-1]], the part of the screenshot name taken
    from the URL (line 119), is what follows the last slash of the URL: it
    holds no slash; it is the whole URL when the URL has no slash, and
    otherwise the URL is some text, a slash, and it.  So the name
    [error_product_page_<...>.png] holds no slash. *)
Theorem screenshot_name_has_no_slash (product_url : string) :
  has_slash (last_segment product_url) = false /\
  (has_slash product_url = false -> last_segment product_url = product_url) /\
  (has_slash product_url = true ->
   exists before, product_url = (before +:+ "/") +:+ last_segment product_url) /\
  has_slash (error_product_page_path product_url) = false.
Proof.
  unfold last_segment.
  destruct (last_segment_from_spec product_url "" eq_refl) as (Hno & Hnone & Hsome).
  rewrite append_nil_l in Hnone, Hsome. repeat split.
  - exact Hno.
  - exact Hnone.
  - exact Hsome.
  - unfold error_product_page_path, last_segment.
    rewrite !has_slash_app, Hno. reflexivity.
Qed.

(** ** Normalising twice *)

(** X2.  URL normalisation is idempotent, and acceptance is stable: a URL
    that lines 154-163 accepted is accepted again, unchanged, if it is met as
    a link attribute. *)
Theorem normalize_url_idempotent (s : string) :
  normalize_url (normalize_url s) = normalize_url s /\
  (forall href u, accepted_url href = Some u -> accepted_url (Some u) = Some u).
Proof.
  split.
  - destruct (startswith s "/") eqn:Hs.
    + pose proof (normalize_url_accepted s Hs) as Hhttp.
      destruct (startswith_slash_not_http _ Hhttp) as [_ Hn].
      apply normalize_url_other, Hn.
    + rewrite (normalize_url_other s Hs). apply normalize_url_other, Hs.
  - intros href u Hacc.
    pose proof (accepted_url_startswith_http href u Hacc) as Hhttp.
    destruct (startswith_slash_not_http u Hhttp) as [_ Hn].
    unfold accepted_url.
    rewrite (nonempty_of_startswith _ _ _ Hhttp), (normalize_url_other u Hn), Hhttp.
    reflexivity.
Qed.

(** ** Dismissing the pop-ups *)

(** X3.  [_close_initial_popups] is best effort for every browser: it never
    raises, whatever its probes and clicks do; it probes the consent button,
    and the close button at most after it; it clicks at most once, and only a
    control that [is_visible] reported visible. *)
Theorem close_initial_popups_best_effort {D} (self : AlibabaScraper D) (page : Page D)
    (f : frame D unit) :
  exists w' evs,
    _close_initial_popups self page f = (Ret tt, Frame (locals f) w' (trace f ++ evs)) /\
    (length (omap clicked evs) <= 1)%nat /\
    (forall sel, In sel (omap clicked evs) ->
                 exists w0 w1, page_is_visible D page sel 2000 w0 = (Ret true, w1)) /\
    (omap probed evs = [selector "popup_consent_button"] \/
     omap probed evs = [selector "popup_consent_button"; selector "popup_close_button"]).
Proof.
  unfold _close_initial_popups. unfold_run.
  repeat (split_call; try match goal with
                          | b : bool |- _ => destruct b
                          end);
    rewrite <- ?app_assoc; cbn [app];
    do 2 eexists; (split; [reflexivity|]);
    (split; [cbn; lia|]);
    (split; [cbn; intros sel Hin; repeat destruct Hin as [<-|Hin]; try contradiction;
             eauto |]);
    cbn; auto.
Qed.

(** X4.  The order of the two controls.  When the consent button is reported
    visible, the close button is not even probed.  When neither control is
    visible, the page is probed twice and nothing else happens: no click, no
    message. *)
Theorem close_initial_popups_priority {D} (self : AlibabaScraper D) (page : Page D)
    (f : frame D unit) :
  (forall w1,
      page_is_visible D page (selector "popup_consent_button") 2000 (world f)
        = (Ret true, w1) ->
      exists w' evs,
        _close_initial_popups self page f
          = (Ret tt, Frame (locals f) w' (trace f ++ evs)) /\
        omap probed evs = [selector "popup_consent_button"] /\
        omap clicked evs = [selector "popup_consent_button"]) /\
  (forall w1 w2,
      page_is_visible D page (selector "popup_consent_button") 2000 (world f)
        = (Ret false, w1) ->
      page_is_visible D page (selector "popup_close_button") 2000 w1
        = (Ret false, w2) ->
      _close_initial_popups self page f =
        (Ret tt,
         Frame (locals f) w2
           (trace f ++
              [EvCall (CIsVisible page (selector "popup_consent_button")) true;
               EvCall (CIsVisible page (selector "popup_close_button")) true]))).
Proof.
  split.
  - intros w1 Hvis. unfold _close_initial_popups. unfold_run. rewrite Hvis. simpl_run.
    split_call; rewrite <- ?app_assoc; cbn [app];
      do 2 eexists; (split; [reflexivity|]); split; reflexivity.
  - intros w1 w2 H1 H2. unfold _close_initial_popups. unfold_run.
    rewrite H1. simpl_run. rewrite H2. simpl_run. rewrite <- app_assoc. reflexivity.
Qed.

(** ** Before the [try] of a search *)

(** X5.  What [_get_new_page] raises escapes both searches as it is, for it
    is called before their [try]: on a scraper that was not entered they raise
    the [RuntimeError] of line 65 and touch nothing (no driver call, no
    message); when the browser fails to open the page they raise its error,
    with no screenshot and nothing to close. *)
Theorem search_needs_a_page {D} (self : AlibabaScraper D) (f : frame D unit) :
  (_browser self = None ->
   forall search_query use_smart_search image_path,
     search_by_text self search_query use_smart_search f =
       (Raise (RuntimeError
                 "Browser not initialized. Use 'async with AlibabaScraper() as scraper:'."),
        f) /\
     search_by_image self image_path f =
       (Raise (RuntimeError
                 "Browser not initialized. Use 'async with AlibabaScraper() as scraper:'."),
        f)) /\
  (forall browser e w1,
      _browser self = Some browser ->
      browser_new_page D browser (world f) = (Raise e, w1) ->
      forall search_query use_smart_search image_path,
        search_by_text self search_query use_smart_search f =
          (Raise e, Frame (locals f) w1 (trace f ++ [EvCall CBrowserNewPage false])) /\
        search_by_image self image_path f =
          (Raise e, Frame (locals f) w1 (trace f ++ [EvCall CBrowserNewPage false]))).
Proof.
  split.
  - intros Hb q flag path. unfold search_by_text, search_by_image, _get_new_page.
    rewrite Hb. split; reflexivity.
  - intros browser e w1 Hb Hnew q flag path.
    unfold search_by_text, search_by_image, _get_new_page. rewrite Hb. unfold_run.
    rewrite Hnew. split; reflexivity.
Qed.

(** X6.  The page a search opened is closed on every path: whatever the
    flow, its [except] clause and the screenshot do, the last call of the
    search is [close] on that page. *)
Theorem search_closes_its_page {D} (self : AlibabaScraper D) (browser : Browser D)
    (f : frame D unit) (page : Page D) (w1 : World D) :
  _browser self = Some browser ->
  browser_new_page D browser (world f) = (Ret page, w1) ->
  (forall search_query use_smart_search,
      exists tr ok,
        trace (snd (search_by_text self search_query use_smart_search f))
          = (tr ++ [EvCall (CClose page) ok])%list) /\
  (forall image_path,
      exists tr ok,
        trace (snd (search_by_image self image_path f))
          = (tr ++ [EvCall (CClose page) ok])%list).
Proof.
  intros Hb Hnew. split.
  - intros q flag. unfold search_by_text, _get_new_page. rewrite Hb. unfold_run.
    rewrite Hnew. simpl_run. repeat split_call; eauto.
  - intros path. unfold search_by_image, _get_new_page. rewrite Hb. unfold_run.
    rewrite Hnew. simpl_run. repeat split_call; eauto.
Qed.

(** ** What the methods add to the log *)

Section Emits.

Context {D : Driver} (Q : list (event D) -> Prop).

(** [Q] holds of no event and of two runs of events put end to end. *)
Hypothesis Q_nil : Q [].
Hypothesis Q_app : forall evs1 evs2, Q evs1 -> Q evs2 -> Q (evs1 ++ evs2)%list.

Lemma emits_ret {L A} (a : A) : emits Q (ret a : M D L A).
Proof.
  intros l w. exists (Ret a), l, w, []. split; [exact Q_nil|].
  intros tr. unfold ret. rewrite app_nil_r. reflexivity.
Qed.

Lemma emits_raise {L A} (e : exn) : emits Q (raise e : M D L A).
Proof.
  intros l w. exists (Raise e), l, w, []. split; [exact Q_nil|].
  intros tr. unfold raise. rewrite app_nil_r. reflexivity.
Qed.

Lemma emits_get_locals {L} : emits Q (get_locals : M D L L).
Proof.
  intros l w. exists (Ret l), l, w, []. split; [exact Q_nil|].
  intros tr. unfold get_locals. cbn. rewrite app_nil_r. reflexivity.
Qed.

Lemma emits_set_locals {L} (l0 : L) : emits Q (set_locals l0 : M D L unit).
Proof.
  intros l w. exists (Ret tt), l0, w, []. split; [exact Q_nil|].
  intros tr. unfold set_locals. cbn. rewrite app_nil_r. reflexivity.
Qed.

Lemma emits_read {L A} (g : World D -> A) : emits Q (read g : M D L A).
Proof.
  intros l w. exists (Ret (g w)), l, w, []. split; [exact Q_nil|].
  intros tr. unfold read. cbn. rewrite app_nil_r. reflexivity.
Qed.

Lemma emits_print {L} (m : message) : Q [EvPrint m] -> emits Q (print m : M D L unit).
Proof.
  intros H l w. exists (Ret tt), l, w, [EvPrint m]. split; [exact H|].
  intros tr. reflexivity.
Qed.

Lemma emits_invoke {L A} (c : call D) (op : World D -> outcome A * World D) :
  (forall ok, Q [EvCall c ok]) -> emits Q (invoke c op : M D L A).
Proof.
  intros H l w. destruct (op w) as [r w'] eqn:E.
  exists r, l, w', [EvCall c (is_ret r)]. split; [apply H|].
  intros tr. unfold invoke. cbn. rewrite E. reflexivity.
Qed.

Lemma emits_bind {L A B} (m : M D L A) (k : A -> M D L B) :
  emits Q m -> (forall a, emits Q (k a)) -> emits Q (bind m k).
Proof.
  intros Hm Hk l w. destruct (Hm l w) as (r & l1 & w1 & evs1 & Hq1 & Hrun1).
  destruct r as [a|e].
  - destruct (Hk a l1 w1) as (r2 & l2 & w2 & evs2 & Hq2 & Hrun2).
    exists r2, l2, w2, (evs1 ++ evs2)%list. split; [auto|].
    intros tr. unfold bind. rewrite Hrun1, Hrun2, app_assoc. reflexivity.
  - exists (Raise e), l1, w1, evs1. split; [exact Hq1|].
    intros tr. unfold bind. rewrite Hrun1. reflexivity.
Qed.

Lemma emits_try_except {L A} (body : M D L A) (handler : exn -> M D L A) :
  emits Q body -> (forall e, emits Q (handler e)) -> emits Q (try_except body handler).
Proof.
  intros Hm Hk l w. destruct (Hm l w) as (r & l1 & w1 & evs1 & Hq1 & Hrun1).
  destruct r as [a|e].
  - exists (Ret a), l1, w1, evs1. split; [exact Hq1|].
    intros tr. unfold try_except. rewrite Hrun1. reflexivity.
  - destruct (Hk e l1 w1) as (r2 & l2 & w2 & evs2 & Hq2 & Hrun2).
    exists r2, l2, w2, (evs1 ++ evs2)%list. split; [auto|].
    intros tr. unfold try_except. rewrite Hrun1, Hrun2, app_assoc. reflexivity.
Qed.

Lemma emits_try_finally {L A} (body : M D L A) (final : M D L unit) :
  emits Q body -> emits Q final -> emits Q (try_finally body final).
Proof.
  intros Hm Hk l w. destruct (Hm l w) as (r & l1 & w1 & evs1 & Hq1 & Hrun1).
  destruct (Hk l1 w1) as (r2 & l2 & w2 & evs2 & Hq2 & Hrun2).
  exists (match r2 with Ret _ => r | Raise e => Raise e end), l2, w2,
    (evs1 ++ evs2)%list.
  split; [auto|].
  intros tr. unfold try_finally. rewrite Hrun1, Hrun2, app_assoc.
  destruct r2; reflexivity.
Qed.

Lemma emits_call_method {L L' A} (l0 : L') (m : M D L' A) :
  emits Q m -> emits Q (call_method l0 m : M D L A).
Proof.
  intros Hm l w. destruct (Hm l0 w) as (r & l1 & w1 & evs1 & Hq1 & Hrun1).
  exists r, l, w1, evs1. split; [exact Hq1|].
  intros tr. unfold call_method. cbn. rewrite Hrun1. reflexivity.
Qed.

End Emits.

(** A run of a method from any frame. *)
Lemma emits_run {D L A} (Q : list (event D) -> Prop) (m : M D L A) (f : frame D L) :
  emits Q m ->
  exists r l' w' evs, m f = (r, Frame l' w' (trace f ++ evs)%list) /\ Q evs.
Proof.
  intros Hm. destruct f as [l w tr].
  destruct (Hm l w) as (r & l1 & w1 & evs1 & Hq1 & Hrun1).
  exists r, l1, w1, evs1. split; [apply Hrun1 | exact Hq1].
Qed.

(** A method that does not read the log emits what it logs from the empty
    log. *)
Lemma emits_of_silent {D L A} (Q : list (event D) -> Prop) (m : M D L A) :
  silent nothing m ->
  (forall l w r f', m (Frame l w []) = (r, f') -> Q (trace f')) ->
  emits Q m.
Proof.
  intros Hs HQ l w. destruct (Hs l w) as (r & l' & w' & evs & _ & Hrun).
  exists r, l', w', evs. split; [|exact Hrun].
  apply (HQ l w r _ (Hrun [])).
Qed.

(** Proves [emits Q m] along the syntax of [m], as [silent_with] does;
    [single] proves [Q] of one event. *)
Ltac emits_with known single :=
  cbv zeta;
  repeat first
    [ known
    | apply emits_ret; [assumption]
    | apply emits_raise; [assumption]
    | apply emits_get_locals; [assumption]
    | apply emits_set_locals; [assumption]
    | apply emits_read; [assumption]
    | apply emits_print; single
    | apply emits_invoke; intros ?; single
    | apply emits_call_method
    | apply emits_bind; [assumption | | intros ?]
    | apply emits_try_except; [assumption | | intros ?]
    | apply emits_try_finally; [assumption | |]
    | match goal with
      | |- emits _ (match ?x with _ => _ end) => destruct x eqn:?
      end ].

(** ** Pages opened, pages closed *)

Lemma pages_balanced_nil {D} : @pages_balanced D [].
Proof. reflexivity. Qed.

Lemma pages_balanced_app {D} (evs1 evs2 : list (event D)) :
  pages_balanced evs1 -> pages_balanced evs2 -> pages_balanced (evs1 ++ evs2).
Proof.
  unfold pages_balanced. intros H1 H2. rewrite !omap_app, !length_app. lia.
Qed.

Lemma no_page_event_nil {D} : @no_page_event D [].
Proof. split; reflexivity. Qed.

Lemma no_page_event_app {D} (evs1 evs2 : list (event D)) :
  no_page_event evs1 -> no_page_event evs2 -> no_page_event (evs1 ++ evs2).
Proof.
  unfold no_page_event. intros [H1 H1'] [H2 H2']. rewrite !omap_app, H1, H1', H2, H2'.
  split; reflexivity.
Qed.

Lemma close_initial_popups_no_page {D} (self : AlibabaScraper D) (page : Page D) :
  emits no_page_event (_close_initial_popups self page).
Proof.
  pose proof (@no_page_event_nil D) as Hnil.
  pose proof (@no_page_event_app D) as Happ.
  unfold _close_initial_popups. unfold_calls.
  emits_with fail ltac:(split; reflexivity).
Qed.

Lemma omap_cons_step {A B} (g : A -> option B) (x : A) (l : list A) :
  omap g (x :: l) = match g x with Some y => y :: omap g l | None => omap g l end.
Proof. reflexivity. Qed.

Lemma omap_nil_step {A B} (g : A -> option B) : omap g [] = [].
Proof. reflexivity. Qed.

(** Counts the pages opened and closed in a log given in full, but for runs
    known to open and close none. *)
Ltac count_pages :=
  repeat (rewrite omap_app || rewrite omap_cons_step);
  cbn [opened closed];
  repeat match goal with
         | H : omap _ _ = [] |- _ => rewrite H
         end;
  repeat (progress (rewrite ?omap_nil_step, ?app_nil_r, ?length_app; cbn [length app]));
  try lia.

Lemma extract_details_balanced {D} (self : AlibabaScraper D) (product_url : string)
    (context : Context D) :
  emits pages_balanced
    (_extract_product_details_from_product_page self product_url context).
Proof.
  apply emits_of_silent; [apply extract_details_silent, nothing_drops|].
  intros l w r f'.
  unfold _extract_product_details_from_product_page, extract_details_try,
    extract_details_except, extract_details_finally.
  unfold_run.
  repeat (first
            [ match goal with
              | |- context [_close_initial_popups ?s ?p ?g] =>
                  let Hrun := fresh "Hrun" in
                  let Hq := fresh "Hq" in
                  destruct (emits_run _ _ g (close_initial_popups_no_page s p))
                    as ([[]|?] & ? & ? & ? & Hrun & [Hq ?]);
                  rewrite Hrun; simpl_run
              end
            | split_call ]);
    intros Hres; injection Hres as <- <-; cbn [trace];
    unfold pages_balanced; count_pages.
Qed.

Lemma process_item_balanced {D} (self : AlibabaScraper D) (i : nat) (item : Locator D) :
  emits pages_balanced (process_item self i item).
Proof.
  pose proof (@pages_balanced_nil D) as Hnil.
  pose proof (@pages_balanced_app D) as Happ.
  unfold process_item, process_item_try, append_product. unfold_calls.
  emits_with ltac:(apply extract_details_balanced) ltac:(reflexivity).
Qed.

Lemma for_items_balanced {D} (self : AlibabaScraper D) (items : list (Locator D)) :
  forall i, emits pages_balanced (for_items self i items).
Proof.
  induction items as [|item rest IH]; intros i; cbn [for_items].
  - apply emits_ret, pages_balanced_nil.
  - destruct (Nat.leb 5 i).
    + apply emits_print. reflexivity.
    + apply emits_bind;
        [apply pages_balanced_app | apply process_item_balanced | intros _; apply IH].
Qed.

Lemma parse_search_results_balanced {D} (self : AlibabaScraper D) (page : Page D) :
  emits pages_balanced (_parse_search_results self page).
Proof.
  pose proof (@pages_balanced_nil D) as Hnil.
  pose proof (@pages_balanced_app D) as Happ.
  unfold _parse_search_results. unfold_calls.
  emits_with ltac:(apply for_items_balanced) ltac:(reflexivity).
Qed.

Lemma emits_weaken {D L A} (Q Q' : list (event D) -> Prop) (m : M D L A) :
  (forall evs, Q evs -> Q' evs) -> emits Q m -> emits Q' m.
Proof.
  intros HQ Hm l w. destruct (Hm l w) as (r & l' & w' & evs & Hq & Hrun).
  exists r, l', w', evs. auto.
Qed.

Lemma close_initial_popups_balanced {D} (self : AlibabaScraper D) (page : Page D) :
  emits pages_balanced (_close_initial_popups self page).
Proof.
  apply (emits_weaken no_page_event); [|apply close_initial_popups_no_page].
  intros evs [Ho Hc]. unfold pages_balanced. rewrite Ho, Hc. reflexivity.
Qed.

Lemma search_by_text_try_balanced {D} (self : AlibabaScraper D) (page : Page D)
    (search_query : string) (use_smart_search : bool) :
  emits pages_balanced (search_by_text_try self page search_query use_smart_search).
Proof.
  pose proof (@pages_balanced_nil D) as Hnil.
  pose proof (@pages_balanced_app D) as Happ.
  unfold search_by_text_try. unfold_calls.
  emits_with ltac:(first [ apply close_initial_popups_balanced
                         | apply parse_search_results_balanced ])
             ltac:(reflexivity).
Qed.

Lemma search_by_image_try_balanced {D} (self : AlibabaScraper D) (page : Page D)
    (image_path : string) :
  emits pages_balanced (search_by_image_try self page image_path).
Proof.
  pose proof (@pages_balanced_nil D) as Hnil.
  pose proof (@pages_balanced_app D) as Happ.
  unfold search_by_image_try. unfold_calls.
  emits_with ltac:(first [ apply close_initial_popups_balanced
                         | apply parse_search_results_balanced ])
             ltac:(reflexivity).
Qed.

Lemma search_by_text_silent {D} (self : AlibabaScraper D) (search_query : string)
    (use_smart_search : bool) :
  silent nothing (search_by_text self search_query use_smart_search).
Proof.
  unfold search_by_text, _get_new_page, search_by_text_try. unfold_calls.
  silent_with ltac:(first [ apply close_initial_popups_silent, nothing_drops
                          | apply parse_search_results_silent ]).
Qed.

Lemma search_by_image_silent {D} (self : AlibabaScraper D) (image_path : string) :
  silent nothing (search_by_image self image_path).
Proof.
  unfold search_by_image, _get_new_page, search_by_image_try. unfold_calls.
  silent_with ltac:(first [ apply close_initial_popups_silent, nothing_drops
                          | apply parse_search_results_silent ]).
Qed.

(** Runs the [try] block of a search as a whole. *)
Ltac run_try_block lemma :=
  match goal with
  | |- context [search_by_text_try ?s ?p ?q ?b ?g] =>
      let Hrun := fresh "Hrun" in
      destruct (emits_run _ _ g (search_by_text_try_balanced s p q b))
        as ([?|?] & ? & ? & ? & Hrun & ?);
      rewrite Hrun; simpl_run
  | |- context [search_by_image_try ?s ?p ?q ?g] =>
      let Hrun := fresh "Hrun" in
      destruct (emits_run _ _ g (search_by_image_try_balanced s p q))
        as ([?|?] & ? & ? & ? & Hrun & ?);
      rewrite Hrun; simpl_run
  end.

Lemma search_by_text_balanced {D} (self : AlibabaScraper D) (search_query : string)
    (use_smart_search : bool) :
  emits pages_balanced (search_by_text self search_query use_smart_search : M D unit _).
Proof.
  apply emits_of_silent; [apply search_by_text_silent|].
  intros l w r f'. unfold search_by_text, _get_new_page.
  destruct (_browser self); unfold_run.
  - repeat (first [run_try_block tt | split_call]);
      intros Hres; injection Hres as <- <-; cbn [trace];
      unfold pages_balanced in *; count_pages.
  - intros [= <- <-]. reflexivity.
Qed.

Lemma search_by_image_balanced {D} (self : AlibabaScraper D) (image_path : string) :
  emits pages_balanced (search_by_image self image_path : M D unit _).
Proof.
  apply emits_of_silent; [apply search_by_image_silent|].
  intros l w r f'. unfold search_by_image, _get_new_page.
  destruct (_browser self); unfold_run.
  - repeat (first [run_try_block tt | split_call]);
      intros Hres; injection Hres as <- <-; cbn [trace];
      unfold pages_balanced in *; count_pages.
  - intros [= <- <-]. reflexivity.
Qed.

(** X7.  No page is left open.  In every run of [search_by_text] and of
    [search_by_image], for every browser and whatever fails, [close] is
    called as many times as pages were opened, the page of the search and the
    detail pages of the items together. *)
Theorem searches_close_every_page {D} (self : AlibabaScraper D) (f : frame D unit) :
  (forall search_query use_smart_search,
      exists evs,
        trace (snd (search_by_text self search_query use_smart_search f))
          = (trace f ++ evs)%list /\
        pages_balanced evs) /\
  (forall image_path,
      exists evs,
        trace (snd (search_by_image self image_path f)) = (trace f ++ evs)%list /\
        pages_balanced evs).
Proof.
  split.
  - intros q flag.
    destruct (emits_run _ _ f (search_by_text_balanced self q flag))
      as (r & l' & w' & evs & Hrun & Hq).
    exists evs. rewrite Hrun. auto.
  - intros path.
    destruct (emits_run _ _ f (search_by_image_balanced self path))
      as (r & l' & w' & evs & Hrun & Hq).
    exists evs. rewrite Hrun. auto.
Qed.

(** ** The records, whatever the page *)

Lemma summary_shape (t c : option string) (u : string) :
  dom (product_summary_of t c u) = summary_keys /\
  detail_fields_unset (product_summary_of t c u).
Proof.
  split; [reflexivity|]. repeat split; try reflexivity. exists "N/A". reflexivity.
Qed.

Lemma merged_shape (t c : option string) (u : string) (d : record) :
  d = initial_details u \/
  (exists html, d = <["html_content" := PyStr html]> (initial_details u)) ->
  dom (update (product_summary_of t c u) d) = summary_keys ∪ {["url"]} /\
  detail_fields_unset (update (product_summary_of t c u) d).
Proof.
  intros [-> | [html ->]].
  - split; [reflexivity|]. repeat split; try reflexivity. exists "N/A". reflexivity.
  - split; [reflexivity|]. repeat split; try reflexivity. exists html. reflexivity.
Qed.

(** The record the [try] block of the loop body appends, when it appends
    one: the summary record, alone or with the detail record merged in. *)
Lemma process_item_try_shape {D} (self : AlibabaScraper D) (i : nat) (item : Locator D)
    (f f' : frame D (list record)) (r : outcome unit) :
  process_item_try self i item f = (r, f') ->
  locals f' = locals f \/
  exists rec,
    locals f' = (locals f ++ [rec])%list /\
    (dom rec = summary_keys \/ dom rec = summary_keys ∪ {["url"]}) /\
    detail_fields_unset rec.
Proof.
  unfold process_item_try, append_product. unfold_run.
  repeat split_call; try (intros [= <- <-]; left; reflexivity).
  destruct a1 as [s|]; [|intros [= <- <-]; left; reflexivity].
  destruct (String.eqb s ""); [intros [= <- <-]; left; reflexivity|].
  destruct (startswith (normalize_url s) "http"); cbn [negb];
    [|intros [= <- <-]; left; reflexivity].
  destruct (_browser self) as [browser|]; simpl_run.
  - destruct (browser_contexts D browser w1) as [|context0 ?]; simpl_run.
    + intros [= <- <-]. right. eexists. split; [reflexivity|].
      destruct (summary_shape a a0 (normalize_url s)). auto.
    + split_call; intros [= <- <-]; [|left; reflexivity].
      apply extract_details_returns in Ecall2.
      right. eexists. split; [reflexivity|].
      destruct (merged_shape a a0 (normalize_url s) _ Ecall2). auto.
  - intros [= <- <-]. right. eexists. split; [reflexivity|].
    destruct (summary_shape a a0 (normalize_url s)). auto.
Qed.

Section RecordInvariant.

Context {D : Driver} (self : AlibabaScraper D) (P : record -> Prop).

(** Every record the loop body appends satisfies [P]. *)
Hypothesis item_adds :
  forall i item (f f' : frame D (list record)) r,
    process_item_try self i item f = (r, f') ->
    locals f' = locals f \/
    exists rec, locals f' = (locals f ++ [rec])%list /\ P rec.

Lemma for_items_invariant (items : list (Locator D)) :
  forall (i : nat) (f : frame D (list record)),
  exists f' added,
    for_items self i items f = (Ret tt, f') /\
    locals f' = (locals f ++ added)%list /\
    Forall P added /\
    (length added <= 5 - i)%nat /\
    (length added <= length items)%nat.
Proof.
  induction items as [|item rest IH]; intros i f; cbn [for_items].
  - exists f, []. rewrite app_nil_r. cbn. repeat split; [constructor | lia | lia].
  - destruct (Nat.leb_spec 5 i).
    + eexists. exists []. split; [reflexivity|]. cbn [locals]. rewrite app_nil_r.
      cbn. repeat split; [constructor | lia | lia].
    + unfold bind, process_item, try_except.
      destruct (process_item_try self i item f) as [[[]|e] f1] eqn:Htry;
        apply item_adds in Htry; unfold print, log;
        match goal with
        | |- context [for_items self (S i) rest ?g] =>
            destruct (IH (S i) g) as (f2 & added & Hrest & Hl & Hall & Hcap & Hlen)
        end;
        rewrite Hrest; cbn [locals] in Hl;
        (destruct Htry as [Heq | (rec & Heq & Hrec)];
         [ exists f2, added; rewrite Hl, Heq; cbn [length]; repeat split; auto; lia
         | exists f2, (rec :: added); rewrite Hl, Heq, <- app_assoc; cbn [length];
           repeat split; [constructor; auto | lia | lia] ]).
Qed.

Lemma parse_search_results_invariant (page : Page D) (f f' : frame D (list record))
    (rs : list record) :
  _parse_search_results self page f = (Ret rs, f') ->
  Forall P rs /\ (length rs <= 5)%nat.
Proof.
  unfold _parse_search_results. unfold_run.
  repeat (first
            [ match goal with
              | |- context [for_items self 0 ?items ?g] =>
                  let Hrun := fresh "Hrun" in
                  destruct (for_items_invariant items 0 g)
                    as (? & ? & Hrun & ? & ? & ? & ?);
                  rewrite Hrun; simpl_run
              end
            | split_call ]);
    intros Hres; (discriminate Hres || injection Hres as <- <-);
    try (split; [constructor | cbn; lia]).
  cbn [locals app] in *. subst. split; [assumption | lia].
Qed.

Lemma searches_invariant (f f' : frame D unit) (rs : list record) :
  (forall search_query use_smart_search,
      search_by_text self search_query use_smart_search f = (Ret rs, f') ->
      Forall P rs /\ (length rs <= 5)%nat) /\
  (forall image_path,
      search_by_image self image_path f = (Ret rs, f') ->
      Forall P rs /\ (length rs <= 5)%nat).
Proof.
  split.
  - intros q flag. unfold search_by_text, _get_new_page, search_by_text_try.
    destruct (_browser self); destruct flag; unfold_run.
    all: repeat (first
                   [ skip_popups
                   | match goal with
                     | |- context [_parse_search_results ?s ?p ?g] =>
                         let E := fresh "Eparse" in
                         destruct (_parse_search_results s p g) as [[?|?] ?] eqn:E;
                         [apply parse_search_results_invariant in E|]; simpl_run
                     end
                   | split_call ]);
      intros Hres; (discriminate Hres || injection Hres as <- <-);
      (assumption || (split; [constructor | cbn; lia])).
  - intros path. unfold search_by_image, _get_new_page, search_by_image_try.
    destruct (_browser self); unfold_run.
    all: repeat (first
                   [ skip_popups
                   | match goal with
                     | |- context [_parse_search_results ?s ?p ?g] =>
                         let E := fresh "Eparse" in
                         destruct (_parse_search_results s p g) as [[?|?] ?] eqn:E;
                         [apply parse_search_results_invariant in E|]; simpl_run
                     end
                   | split_call ]);
      intros Hres; (discriminate Hres || injection Hres as <- <-);
      (assumption || (split; [constructor | cbn; lia])).
Qed.

End RecordInvariant.

(** X8.  Both searches return at most five records, for every browser and
    every results page; the parser returns no more records than the page has
    items. *)
Theorem at_most_five_records {D} (self : AlibabaScraper D) :
  (forall search_query use_smart_search (f f' : frame D unit) rs,
      search_by_text self search_query use_smart_search f = (Ret rs, f') ->
      (length rs <= 5)%nat) /\
  (forall image_path (f f' : frame D unit) rs,
      search_by_image self image_path f = (Ret rs, f') ->
      (length rs <= 5)%nat) /\
  (forall page (f f' : frame D (list record)) w1 items w2 rs,
      page_wait_for_selector D page (selector "product_item") 15000 (world f)
        = (Ret tt, w1) ->
      page_locator_all D page (selector "product_item") w1 = (Ret items, w2) ->
      _parse_search_results self page f = (Ret rs, f') ->
      (length rs <= length items)%nat /\ (length rs <= 5)%nat).
Proof.
  assert (Hadds : forall i item (f f' : frame D (list record)) r,
             process_item_try self i item f = (r, f') ->
             locals f' = locals f \/
             exists rec, locals f' = (locals f ++ [rec])%list /\ True).
  { intros i item f f' r Htry. apply process_item_try_locals in Htry.
    destruct r; [|auto]. destruct Htry as [?|(rec & ? & ? & ?)]; eauto. }
  split; [|split].
  - intros q flag f f' rs Hrun.
    apply (proj1 (searches_invariant self _ Hadds f f' rs) q flag Hrun).
  - intros path f f' rs Hrun.
    apply (proj2 (searches_invariant self _ Hadds f f' rs) path Hrun).
  - intros page f f' w1 items w2 rs Hwait Hall.
    unfold _parse_search_results. unfold_run. rewrite Hwait. simpl_run.
    rewrite Hall. simpl_run.
    match goal with
    | |- context [for_items self 0 items ?g] =>
        destruct (for_items_invariant self _ Hadds items 0 g)
          as (f2 & added & Hrun & Hl & _ & Hcap & Hlen)
    end.
    rewrite Hrun. intros [= <- <-]. cbn [locals app] in Hl. rewrite Hl. lia.
Qed.

(** X9.  The shape of a returned record.  Every record that a search
    returns has the nine keys of the summary record, and the key ["url"]
    besides when the detail record was merged in, and no other key.  The
    fields that only the detail page could fill are never filled:
    [full_description], [price_per_unit], [company_years] and
    [verified_supplier] are ["N/A"] and [images] is the empty list, whatever
    the detail page holds; [html_content] is a string. *)
Theorem returned_records_shape {D} (self : AlibabaScraper D) :
  let shape (r : record) :=
    (dom r = summary_keys \/ dom r = summary_keys ∪ {["url"]}) /\
    detail_fields_unset r in
  (forall search_query use_smart_search (f f' : frame D unit) rs,
      search_by_text self search_query use_smart_search f = (Ret rs, f') ->
      Forall shape rs) /\
  (forall image_path (f f' : frame D unit) rs,
      search_by_image self image_path f = (Ret rs, f') ->
      Forall shape rs).
Proof.
  intros shape. split.
  - intros q flag f f' rs Hrun.
    apply (proj1 (searches_invariant self shape (process_item_try_shape self) f f' rs)
             q flag Hrun).
  - intros path f f' rs Hrun.
    apply (proj2 (searches_invariant self shape (process_item_try_shape self) f f' rs)
             path Hrun).
Qed.

(** ** The session *)

Ltac unfold_session :=
  cbv [__aenter__ __aexit__ async_with sbind sret s_try_finally get_self set_browser
       set_playwright host_print host_invoke];
  cbn [object host_world host_log this _playwright _browser headless fst snd is_ret].

Ltac simpl_session :=
  cbn [object host_world host_log this _playwright _browser headless fst snd is_ret].

Ltac split_host_call :=
  match goal with
  | |- context [let '(_, _) := ?op in _] =>
      let h := head_of op in
      is_const h;
      let E := fresh "Ecall" in
      destruct op as [[?|?] ?] eqn:E; simpl_session
  end.

(** X10.  Leaving a session.  When [__aexit__] returns, [self._browser] and
    [self._playwright] are [None], and leaving again does nothing: no call, no
    message.  On a scraper that was built and never entered, [__aexit__]
    returns at once and makes no call. *)
Theorem aexit_resets_the_scraper {D} (H : Host D) (sf : session_frame H) :
  (forall sf1,
      __aexit__ H sf = (Ret tt, sf1) ->
      _browser (this (object sf1)) = None /\
      _playwright (object sf1) = None /\
      __aexit__ H sf1 = (Ret tt, sf1)) /\
  (forall headless,
      object sf = __init__ H headless -> __aexit__ H sf = (Ret tt, sf)).
Proof.
  split.
  - intros sf1.
    destruct sf as [[[hl [browser|]] [playwright|]] w log]; unfold_session;
      repeat split_host_call;
      intros Hres; (discriminate Hres || injection Hres as <-);
      simpl_session; auto.
  - intros headless Hobj. destruct sf as [o w log]. cbn in Hobj. subst o.
    reflexivity.
Qed.

(** X11.  A failing exit.  When [__aexit__] raises, the fields of the
    scraper are as they were: [self._browser] is not reset.  When it is
    [browser.close()] that raises, [playwright.stop()] is not called.  When
    [playwright.stop()] raises, the browser has been closed and
    [self._browser] still holds it. *)
Theorem aexit_failure_keeps_the_fields {D} (H : Host D) (sf : session_frame H) :
  (forall e sf1, __aexit__ H sf = (Raise e, sf1) -> object sf1 = object sf) /\
  (forall browser e w1,
      _browser (this (object sf)) = Some browser ->
      browser_close H browser (host_world sf) = (Raise e, w1) ->
      __aexit__ H sf =
        (Raise e,
         SessionFrame (object sf) w1
           (host_log sf ++ [HvCall (HBrowserClose browser) false]))) /\
  (forall browser playwright e w1 w2,
      _browser (this (object sf)) = Some browser ->
      _playwright (object sf) = Some playwright ->
      browser_close H browser (host_world sf) = (Ret tt, w1) ->
      playwright_stop H playwright w1 = (Raise e, w2) ->
      __aexit__ H sf =
        (Raise e,
         SessionFrame (object sf) w2
           (host_log sf ++
              [HvCall (HBrowserClose browser) true; HvPrint MsgBrowserClosed;
               HvCall (HStop playwright) false]))).
Proof.
  split; [|split].
  - intros e sf1.
    destruct sf as [[[hl [browser|]] [playwright|]] w log]; unfold_session;
      repeat split_host_call;
      intros Hres; (discriminate Hres || injection Hres as <- <-);
      reflexivity.
  - intros browser e w1 Hb Hclose. unfold_session. rewrite Hb. simpl_session.
    rewrite Hclose. reflexivity.
  - intros browser playwright e w1 w2 Hb Hp Hclose Hstop. unfold_session.
    rewrite Hb. simpl_session. rewrite Hclose. simpl_session.
    rewrite Hp. simpl_session. rewrite Hstop. simpl_session.
    rewrite <- !app_assoc. reflexivity.
Qed.

(** X12.  A failing entry.  When [async_playwright().start()] or
    [chromium.launch] raises, [async with] raises the same error, the body is
    not run and [__aexit__] is not called: a Playwright that had started is
    never stopped, and [self._playwright] still holds it. *)
Theorem failed_entry_skips_the_exit {D} (H : Host D) (sf : session_frame H)
    {A} (body : Session H A) :
  (forall e w1,
      playwright_start H (host_world sf) = (Raise e, w1) ->
      async_with H body sf =
        (Raise e, SessionFrame (object sf) w1 (host_log sf ++ [HvCall HStart false]))) /\
  (forall playwright w1 e w2,
      playwright_start H (host_world sf) = (Ret playwright, w1) ->
      chromium_launch H playwright (headless (this (object sf))) w1 = (Raise e, w2) ->
      async_with H body sf =
        (Raise e,
         SessionFrame {| this := this (object sf); _playwright := Some playwright |} w2
           (host_log sf ++
              [HvCall HStart true;
               HvCall (HLaunch (headless (this (object sf)))) false]))).
Proof.
  split.
  - intros e w1 Hstart. unfold_session. rewrite Hstart. reflexivity.
  - intros playwright w1 e w2 Hstart Hlaunch. unfold_session. rewrite Hstart.
    simpl_session. rewrite Hlaunch. simpl_session. rewrite <- !app_assoc. reflexivity.
Qed.

(** The frame the body of a session starts in. *)
Lemma aenter_returns {D} (H : Host D) (sf : session_frame H) playwright w1 browser w2 :
  playwright_start H (host_world sf) = (Ret playwright, w1) ->
  chromium_launch H playwright (headless (this (object sf))) w1 = (Ret browser, w2) ->
  __aenter__ H sf =
    (Ret (object (entered_frame H sf playwright browser w2)),
     entered_frame H sf playwright browser w2).
Proof.
  intros Hstart Hlaunch. unfold_session. rewrite Hstart. simpl_session.
  rewrite Hlaunch. simpl_session. unfold entered_frame. simpl_session.
  rewrite <- !app_assoc. reflexivity.
Qed.

(** What [async with] gives when the browser launches, the body leaves the
    fields alone, the browser closes and Playwright stops. *)
Lemma session_frame_exit {D} (H : Host D) (sf : session_frame H)
    {A} (body : Session H A) playwright w1 browser w2 :
  playwright_start H (host_world sf) = (Ret playwright, w1) ->
  chromium_launch H playwright (headless (this (object sf))) w1 = (Ret browser, w2) ->
  forall r sf2 w3 w4,
    body (entered_frame H sf playwright browser w2) = (r, sf2) ->
    object sf2 = object (entered_frame H sf playwright browser w2) ->
    browser_close H browser (host_world sf2) = (Ret tt, w3) ->
    playwright_stop H playwright w3 = (Ret tt, w4) ->
    async_with H body sf =
      (r,
       SessionFrame (__init__ H (headless (this (object sf)))) w4
         (host_log sf2 ++
            [HvCall (HBrowserClose browser) true; HvPrint MsgBrowserClosed;
             HvCall (HStop playwright) true])).
Proof.
  intros Hstart Hlaunch r sf2 w3 w4 Hbody Hobj Hclose Hstop.
  unfold async_with, sbind. rewrite (aenter_returns H sf _ _ _ _ Hstart Hlaunch).
  unfold s_try_finally. rewrite Hbody.
  destruct sf2 as [o2 wb log2]. cbn [object host_world host_log] in *. subst o2.
  unfold entered_frame. unfold_session. rewrite Hclose. simpl_session.
  rewrite Hstop. simpl_session. rewrite <- !app_assoc. reflexivity.
Qed.

(** X13.  The session brackets its body.  When the browser launches, the
    body runs on the object with both fields set and [__aenter__] hands it
    that very object; when the body leaves the fields alone and the browser
    closes and Playwright stops, [async with] gives the outcome of the body,
    a value or an exception, and leaves the object as [__init__] built it. *)
Theorem session_brackets_the_body {D} (H : Host D) (sf : session_frame H)
    {A} (body : Session H A) playwright w1 browser w2 :
  playwright_start H (host_world sf) = (Ret playwright, w1) ->
  chromium_launch H playwright (headless (this (object sf))) w1 = (Ret browser, w2) ->
  let sf1 := entered_frame H sf playwright browser w2 in
  __aenter__ H sf = (Ret (object sf1), sf1) /\
  forall r sf2 w3 w4,
    body sf1 = (r, sf2) ->
    object sf2 = object sf1 ->
    browser_close H browser (host_world sf2) = (Ret tt, w3) ->
    playwright_stop H playwright w3 = (Ret tt, w4) ->
    async_with H body sf =
      (r,
       SessionFrame (__init__ H (headless (this (object sf)))) w4
         (host_log sf2 ++
            [HvCall (HBrowserClose browser) true; HvPrint MsgBrowserClosed;
             HvCall (HStop playwright) true])).
Proof.
  intros Hstart Hlaunch sf1. split.
  - apply (aenter_returns H sf _ _ _ _ Hstart Hlaunch).
  - intros r sf2 w3 w4. apply (session_frame_exit H sf body _ _ _ _ Hstart Hlaunch).
Qed.

(** A method that closes its pages and needs the browser, called in a
    session. *)
Lemma method_in_a_session {D} (H : Host D) {A} (m : AlibabaScraper D -> M D unit A)
    (e0 : exn) (sf : session_frame H) playwright w1 browser w2 :
  (forall self, emits pages_balanced (m self)) ->
  (forall self f, _browser self = None -> m self f = (Raise e0, f)) ->
  playwright_start H (host_world sf) = (Ret playwright, w1) ->
  chromium_launch H playwright (headless (this (object sf))) w1 = (Ret browser, w2) ->
  let sf1 := entered_frame H sf playwright browser w2 in
  exists r w evs,
    run_method H m sf1
      = (r, SessionFrame (object sf1) w (host_log sf1 ++ map HvMethod evs)) /\
    pages_balanced evs /\
    forall w3 w4,
      browser_close H browser w = (Ret tt, w3) ->
      playwright_stop H playwright w3 = (Ret tt, w4) ->
      let sf3 :=
        SessionFrame (__init__ H (headless (this (object sf)))) w4
          (host_log sf1 ++ map HvMethod evs ++
             [HvCall (HBrowserClose browser) true; HvPrint MsgBrowserClosed;
              HvCall (HStop playwright) true]) in
      async_with H (run_method H m) sf = (r, sf3) /\
      run_method H m sf3 = (Raise e0, sf3).
Proof.
  intros Hem Hnone Hstart Hlaunch sf1.
  destruct (Hem (this (object sf1)) tt (host_world sf1)) as (r & l' & w & evs & Hq & Hrun).
  assert (Hbody : run_method H m sf1
                  = (r, SessionFrame (object sf1) w (host_log sf1 ++ map HvMethod evs))).
  { unfold run_method. rewrite (Hrun []). reflexivity. }
  exists r, w, evs. split; [exact Hbody|]. split; [exact Hq|].
  intros w3 w4 Hclose Hstop sf3. split.
  - rewrite (session_frame_exit H sf _ playwright w1 browser w2 Hstart Hlaunch
               _ _ w3 w4 Hbody eq_refl Hclose Hstop). subst sf3. cbn [host_log]. rewrite <- !app_assoc. reflexivity.
  - unfold run_method. subst sf3. cbn [object host_world host_log __init__ this].
    rewrite Hnone by reflexivity. cbn [world trace map]. rewrite app_nil_r. reflexivity.
Qed.

(** X14.  A search in a session.  In [async with AlibabaScraper() as
    scraper], a search called on [scraper] leaves the fields of the object
    alone and closes every page it opened before the browser is closed; when
    the browser closes and Playwright stops, the session gives what the search
    gave.  Called again after the session, the same search raises the
    [RuntimeError] of line 65 and makes no call. *)
Theorem search_in_a_session {D} (H : Host D) (sf : session_frame H)
    playwright w1 browser w2 :
  playwright_start H (host_world sf) = (Ret playwright, w1) ->
  chromium_launch H playwright (headless (this (object sf))) w1 = (Ret browser, w2) ->
  let sf1 := entered_frame H sf playwright browser w2 in
  let in_session (m : AlibabaScraper D -> M D unit (list record)) :=
    exists r w evs,
      run_method H m sf1
        = (r, SessionFrame (object sf1) w (host_log sf1 ++ map HvMethod evs)) /\
      pages_balanced evs /\
      forall w3 w4,
        browser_close H browser w = (Ret tt, w3) ->
        playwright_stop H playwright w3 = (Ret tt, w4) ->
        let sf3 :=
          SessionFrame (__init__ H (headless (this (object sf)))) w4
            (host_log sf1 ++ map HvMethod evs ++
               [HvCall (HBrowserClose browser) true; HvPrint MsgBrowserClosed;
                HvCall (HStop playwright) true]) in
        async_with H (run_method H m) sf = (r, sf3) /\
        run_method H m sf3
          = (Raise (RuntimeError
                      "Browser not initialized. Use 'async with AlibabaScraper() as scraper:'."),
             sf3) in
  (forall search_query use_smart_search,
      in_session (fun scraper => search_by_text scraper search_query use_smart_search)) /\
  (forall image_path,
      in_session (fun scraper => search_by_image scraper image_path)).
Proof.
  intros Hstart Hlaunch sf1 in_session. split.
  - intros q flag.
    apply (method_in_a_session H (fun scraper => search_by_text scraper q flag)
             _ sf playwright w1 browser w2); auto.
    + intros self. apply search_by_text_balanced.
    + intros self f Hb. unfold search_by_text, _get_new_page. rewrite Hb. reflexivity.
  - intros path.
    apply (method_in_a_session H (fun scraper => search_by_image scraper path)
             _ sf playwright w1 browser w2); auto.
    + intros self. apply search_by_image_balanced.
    + intros self f Hb. unfold search_by_image, _get_new_page. rewrite Hb. reflexivity.
Qed.

(** * Scenarios on the scripted browser *)

(** A run is its outcome and its final frame. *)
Lemma run_outcome {A F} (run : outcome A * F) (r : outcome A) :
  fst run = r -> run = (r, snd run).
Proof. destruct run as [r0 f]. cbn. intros ->. reflexivity. Qed.

Lemma run_records {F} (run : outcome (list record) * F) :
  is_ret (fst run) = true -> run = (Ret (Scripted.records (fst run)), snd run).
Proof. destruct run as [[rs|e] f]; [reflexivity | discriminate]. Qed.

(** Closes [run = (r, snd run)] by computing the outcome of [run]. *)
Ltac computed_run :=
  lazymatch goal with
  | |- ?run = (Ret (Scripted.records _), _) =>
      refine (run_records run _); vm_compute; reflexivity
  | |- ?run = (?r, _) =>
      refine (run_outcome run r _); vm_compute; reflexivity
  end.

Section Scenarios.

Import Scripted.

(** C1 as stated fails: a link that begins with [http] without being an
    [http://] or [https://] address, and that is no slash form either, is
    accepted as it is, stored in the record and navigated to. *)
Lemma link_with_http_prefix_is_accepted :
  let s := healthy [item "t" "c" "httpfoo"] in
  startswith "httpfoo" "/" = false /\
  absolute_http "httpfoo" = false /\
  accepted_url (Some "httpfoo") = Some "httpfoo" /\
  column "product_page_url" (fst (search_by_text (scraper s) "q" false (start s tt)))
    = Some [Some (PyStr "httpfoo")] /\
  navigations (trace (snd (search_by_text (scraper s) "q" false (start s tt))))
    = ["https://www.alibaba.com"; "httpfoo"].
Proof. vm_compute. repeat split. Qed.

Lemma url_normalization_rule_witness :
  startswith "//cdn.alibaba.com/p/1" "//" = true /\
  accepted_url (Some "//cdn.alibaba.com/p/1") = Some "https://cdn.alibaba.com/p/1".
Proof.
  split; [reflexivity|].
  apply (proj1 (proj1 (url_normalization_rule (scraper (healthy []))) _)).
  reflexivity.
Defined.

(** C2 as stated fails: when the site cannot be reached and the screenshot
    of the [except] clause fails too, both searches raise. *)
Lemma search_raises_when_screenshot_fails :
  let s := without_screenshots unreachable in
  fst (search_by_text (scraper s) "q" false (start s tt)) = Raise target_error /\
  fst (search_by_image (scraper s) "dummy_image.png" (start s tt)) = Raise target_error.
Proof. vm_compute. split; reflexivity. Qed.

Lemma search_returns_a_list_witness :
  let s := unreachable in
  exists rs, fst (search_by_text (scraper s) "q" false (start s tt)) = Ret rs.
Proof.
  intros s.
  apply (proj1 (search_returns_a_list (scraper s) tt (start s tt) eq_refl
                  (fun w => eq_refl) (fun p w => eq_refl) (fun p w => eq_refl)
                  (fun p w => eq_refl))).
Defined.

(** C3 as stated fails: the seven items of the scenario give five records,
    those of items 0 to 4; item 6 gives none. *)
Lemma seven_items_give_five_records :
  let s := healthy seven_items in
  column "product_page_url" (fst (_parse_search_results (scraper s) 0 (start s [])))
    = Some [Some (PyStr "https://www.alibaba.com/p/0");
            Some (PyStr "https://www.alibaba.com/p/1");
            Some (PyStr "https://www.alibaba.com/p/2");
            Some (PyStr "https://www.alibaba.com/p/3");
            Some (PyStr "https://www.alibaba.com/p/4")].
Proof. vm_compute. reflexivity. Qed.

Lemma seven_items_scenario_witness :
  let s := healthy seven_items in
  exists rs f',
    _parse_search_results (scraper s) 0 (start s []) = (Ret rs, f') /\
    length rs = 5%nat /\
    Forall2 (fun '(t, c, u) r =>
               summary_fields (Some t) (Some c) u r /\ r !! "url" = Some (PyStr u))
      [("t0", "c0", "https://www.alibaba.com/p/0");
       ("t1", "c1", "https://www.alibaba.com/p/1");
       ("t2", "c2", "https://www.alibaba.com/p/2");
       ("t3", "c3", "https://www.alibaba.com/p/3");
       ("t4", "c4", "https://www.alibaba.com/p/4")] rs /\
    processed_items (trace f') = [0; 1; 2; 3; 4]%nat.
Proof.
  intros s.
  apply (seven_items_scenario (scraper s) 0 (start s []) [0; 1; 2; 3; 4]%nat 5%nat 6%nat
           _ 0%nat 0%nat).
  - reflexivity.
  - repeat constructor; intros w; exists w; vm_compute; reflexivity.
  - repeat constructor.
  - intros w. reflexivity.
  - intros p path w. reflexivity.
  - intros p w. reflexivity.
  - reflexivity.
  - vm_compute. reflexivity.
Defined.

(** C4 on a page of three items of which the second has no readable title:
    the loop returns the records of the first and of the third, in order. *)
Lemma partial_failure_isolation_witness :
  let s := broken_second_item in
  let fk := snd (for_items (scraper s) 0 [0%nat] (start s [])) in
  let f1 := snd (process_item_try (scraper s) 1 1%nat fk) in
  column "title" (Ret (locals (snd (for_items (scraper s) 0 [0; 1; 2]%nat (start s [])))))
    = Some [Some (PyStr "t0"); Some (PyStr "t2")] /\
  exists f' added,
    for_items (scraper s) 0 ([0%nat] ++ 1%nat :: [2%nat]) (start s []) = (Ret tt, f') /\
    for_items (scraper s) 2 [2%nat]
      (Frame (locals fk) (world f1)
         (trace f1 ++ [EvPrint (MsgItemError 2 timeout_error)])) = (Ret tt, f') /\
    locals f' = (locals fk ++ added)%list.
Proof.
  intros s fk f1. split; [vm_compute; reflexivity|].
  apply (proj1 (proj2 (partial_failure_isolation (scraper s)))
           0%nat [0%nat] 1%nat [2%nat] (start s []) fk f1 timeout_error).
  - cbn. lia.
  - subst f1 fk. computed_run.
  - change (0 + length [0%nat])%nat with 1%nat. subst f1 fk. computed_run.
Defined.

(** C5 as stated fails: when no result item appears and the screenshot
    fails, the parser raises, and so do both searches. *)
Lemma empty_results_raise_when_screenshot_fails :
  let s := without_screenshots no_results in
  fst (_parse_search_results (scraper s) 0 (start s [])) = Raise target_error /\
  fst (search_by_text (scraper s) "q" false (start s tt)) = Raise target_error /\
  fst (search_by_image (scraper s) "dummy_image.png" (start s tt)) = Raise target_error.
Proof. vm_compute. repeat split. Qed.

Lemma no_items_empty_result_witness :
  let s := no_results in
  fst (_parse_search_results (scraper s) 0 (start s [])) = Ret [] /\
  screenshots (trace (snd (_parse_search_results (scraper s) 0 (start s []))))
    = [("error_search_results_no_items.png", true)].
Proof.
  intros s.
  rewrite (proj1 (no_items_empty_result (scraper s)) 0%nat (start s []) timeout_error
             0%nat 0%nat eq_refl eq_refl).
  split; reflexivity.
Defined.

Lemma result_cap_witness :
  let s := healthy seven_items in
  (5 < length (seq 0 7))%nat /\
  exists f5 f',
    for_items (scraper s) 0 (firstn 5 (seq 0 7)) (start s []) = (Ret tt, f5) /\
    for_items (scraper s) 0 (seq 0 7) (start s []) = (Ret tt, f') /\
    locals f' = locals f5 /\
    world f' = world f5 /\
    trace f' = (trace f5 ++ [EvPrint MsgLimit])%list /\
    processed_items (trace f') = [0; 1; 2; 3; 4]%nat.
Proof.
  intros s. split; [cbn; lia|].
  apply (result_cap (scraper s) (seq 0 7) (start s [])). cbn. lia.
Defined.

(** C7 as stated fails: when the detail page does not load and the
    screenshot fails, the extractor raises; and when the detail page cannot
    be opened, the extractor returns without any screenshot. *)
Lemma extractor_raises_when_screenshot_fails :
  let s := without_screenshots (only_front_page []) in
  let s' := without_detail_pages (healthy []) in
  fst (_extract_product_details_from_product_page (scraper s)
         "https://www.alibaba.com/p/0" 0%nat (start s (DetailsLocals None ∅)))
    = Raise target_error /\
  entries ["url"; "html_content"]
    (fst (_extract_product_details_from_product_page (scraper s')
            "https://www.alibaba.com/p/0" 0%nat (start s' (DetailsLocals None ∅))))
    = Some [Some (PyStr "https://www.alibaba.com/p/0"); Some (PyStr "N/A")] /\
  screenshots
    (trace (snd (_extract_product_details_from_product_page (scraper s')
                   "https://www.alibaba.com/p/0" 0%nat (start s' (DetailsLocals None ∅)))))
    = [].
Proof. vm_compute. repeat split. Qed.

Lemma extract_details_error_paths_witness :
  let s := only_front_page [] in
  let run :=
    _extract_product_details_from_product_page (scraper s)
      "https://www.alibaba.com/p/0" 0%nat (start s (DetailsLocals None ∅)) in
  entries ["url"; "html_content"; "full_description"; "images"] (fst run)
    = Some [Some (PyStr "https://www.alibaba.com/p/0"); Some (PyStr "N/A");
            Some (PyStr "N/A"); Some (PyList [])] /\
  screenshots (trace (snd run)) = [("error_product_page_0.png", true)].
Proof.
  intros s run. subst run.
  rewrite (proj1 (proj2 (extract_details_error_paths (scraper s)
                           "https://www.alibaba.com/p/0" 0%nat
                           (start s (DetailsLocals None ∅))))
             timeout_error
             (snd (extract_details_try (scraper s) "https://www.alibaba.com/p/0" 0%nat
                     (entered s "https://www.alibaba.com/p/0")))
             0%nat 1%nat 1%nat).
  - split; vm_compute; reflexivity.
  - computed_run.
  - vm_compute. reflexivity.
  - vm_compute. reflexivity.
  - vm_compute. reflexivity.
Defined.

(** C8 as stated fails: a failed screenshot changes the result (the item
    whose detail page does not load is returned when the screenshot is taken,
    dropped when it is not) and reaches the caller when it is the screenshot
    of the search itself. *)
Lemma failed_screenshot_changes_the_result :
  let s := only_front_page [item "t" "c" "https://www.alibaba.com/p/0"] in
  let s' := without_screenshots s in
  let s'' := without_screenshots unreachable in
  column "title" (fst (search_by_text (scraper s) "q" false (start s tt)))
    = Some [Some (PyStr "t")] /\
  column "title" (fst (search_by_text (scraper s') "q" false (start s' tt)))
    = Some [] /\
  fst (search_by_image (scraper s'') "dummy_image.png" (start s'' tt))
    = Raise target_error.
Proof. vm_compute. repeat split. Qed.

Lemma screenshot_failure_propagates_witness :
  let s := without_screenshots (only_front_page []) in
  fst (_extract_product_details_from_product_page (scraper s)
         "https://www.alibaba.com/p/0" 0%nat (start s (DetailsLocals None ∅)))
    = Raise target_error.
Proof.
  intros s.
  apply (proj1 (screenshot_failure_propagates (scraper s))
           "https://www.alibaba.com/p/0" 0%nat (start s (DetailsLocals None ∅))
           timeout_error
           (snd (extract_details_try (scraper s) "https://www.alibaba.com/p/0" 0%nat
                   (entered s "https://www.alibaba.com/p/0")))
           0%nat target_error 1%nat 1%nat).
  - computed_run.
  - vm_compute. reflexivity.
  - vm_compute. reflexivity.
  - vm_compute. reflexivity.
Defined.

(** C10 as stated fails: without a browser context the record is returned
    as the results page gave it, with no key ["url"]. *)
Lemma record_without_url_key :
  let s := without_contexts (healthy [item "t" "c" "https://www.alibaba.com/p/0"]) in
  column "product_page_url" (fst (search_by_text (scraper s) "q" false (start s tt)))
    = Some [Some (PyStr "https://www.alibaba.com/p/0")] /\
  column "url" (fst (search_by_text (scraper s) "q" false (start s tt)))
    = Some [None].
Proof. vm_compute. split; reflexivity. Qed.

Lemma records_carry_summary_and_url_witness :
  let s := healthy [item "t" "c" "https://www.alibaba.com/p/0"] in
  let run := search_by_text (scraper s) "q" false (start s tt) in
  let rs := records (fst run) in
  length rs = 1%nat /\ Forall (returned_record true) rs.
Proof.
  intros s run rs. split; [vm_compute; reflexivity|].
  apply (proj1 (proj2 (proj2 (proj2 (records_carry_summary_and_url (scraper s))))
                 (fun w => eq_refl)) "q" false (start s tt) (snd run) rs).
  subst rs run. computed_run.
Defined.

End Scenarios.

(** * Scenarios for the further properties *)

Section MoreScenarios.

Import Scripted ScriptedHost.

(** X1 on a detail URL. *)
Lemma screenshot_name_has_no_slash_witness :
  let url := "https://www.alibaba.com/p/0" in
  has_slash url = true /\
  last_segment url = "0" /\
  (exists before, url = (before +:+ "/") +:+ last_segment url) /\
  has_slash (error_product_page_path url) = false.
Proof.
  intros url. split; [reflexivity|]. split; [reflexivity|]. split.
  - apply (proj1 (proj2 (proj2 (screenshot_name_has_no_slash url)))). reflexivity.
  - apply (proj2 (proj2 (proj2 (screenshot_name_has_no_slash url)))).
Defined.

(** X2 on a root-relative link. *)
Lemma normalize_url_idempotent_witness :
  accepted_url (Some "/p/6") = Some "https://www.alibaba.com/p/6" /\
  accepted_url (Some "https://www.alibaba.com/p/6") = Some "https://www.alibaba.com/p/6".
Proof.
  split; [reflexivity|].
  apply (proj2 (normalize_url_idempotent "/p/6") (Some "/p/6")). reflexivity.
Defined.

(** X3 on a site with the consent pop-up. *)
Lemma close_initial_popups_best_effort_witness :
  let s := with_consent_popup (healthy []) in
  exists w' evs,
    _close_initial_popups (scraper s) 0%nat (start s tt)
      = (Ret tt, @Frame (driver s) unit tt w' ([] ++ evs)) /\
    (length (omap clicked evs) <= 1)%nat /\
    (forall sel, In sel (omap clicked evs) ->
                 exists w0 w1, page_is_visible (driver s) 0%nat sel 2000 w0 = (Ret true, w1)) /\
    (omap probed evs = [selector "popup_consent_button"] \/
     omap probed evs = [selector "popup_consent_button"; selector "popup_close_button"]).
Proof.
  intros s. apply (close_initial_popups_best_effort (scraper s) 0%nat (start s tt)).
Defined.

(** X4 on a site with the consent pop-up and on one without. *)
Lemma close_initial_popups_priority_witness :
  let s := with_consent_popup (healthy []) in
  let s' := healthy [] in
  page_is_visible (driver s) 0%nat (selector "popup_consent_button") 2000 0%nat
    = (Ret true, 0%nat) /\
  (exists w' evs,
      _close_initial_popups (scraper s) 0%nat (start s tt)
        = (Ret tt, @Frame (driver s) unit tt w' ([] ++ evs)) /\
      omap probed evs = [selector "popup_consent_button"] /\
      omap clicked evs = [selector "popup_consent_button"]) /\
  page_is_visible (driver s') 0%nat (selector "popup_consent_button") 2000 0%nat
    = (Ret false, 0%nat) /\
  page_is_visible (driver s') 0%nat (selector "popup_close_button") 2000 0%nat
    = (Ret false, 0%nat) /\
  _close_initial_popups (scraper s') 0%nat (start s' tt) =
    (Ret tt,
     @Frame (driver s') unit tt 0%nat
       ([] ++
          [EvCall (@CIsVisible (driver s') 0%nat (selector "popup_consent_button")) true;
           EvCall (@CIsVisible (driver s') 0%nat (selector "popup_close_button")) true])).
Proof.
  intros s s'. split; [reflexivity|]. split.
  - apply (proj1 (close_initial_popups_priority (scraper s) 0%nat (start s tt)) 0%nat).
    reflexivity.
  - split; [reflexivity|]. split; [reflexivity|].
    apply (proj2 (close_initial_popups_priority (scraper s') 0%nat (start s' tt))
             0%nat 0%nat); reflexivity.
Defined.

(** X5 on a scraper that was not entered and on a crashed browser. *)
Lemma search_needs_a_page_witness :
  let s := healthy [] in
  let unentered := Build_AlibabaScraper (driver s) true None in
  let lost := Build_AlibabaScraper (crashed s) true (Some tt) in
  let f := @Frame (crashed s) unit tt 0%nat [] in
  _browser unentered = None /\
  search_by_text unentered "q" false (start s tt) =
    (Raise (RuntimeError
              "Browser not initialized. Use 'async with AlibabaScraper() as scraper:'."),
     start s tt) /\
  _browser lost = Some tt /\
  browser_new_page (crashed s) tt 0%nat = (Raise target_error, 0%nat) /\
  search_by_image lost "a.png" f =
    (Raise target_error,
     @Frame (crashed s) unit tt 0%nat ([] ++ [EvCall (@CBrowserNewPage (crashed s)) false])).
Proof.
  intros s unentered lost f. split; [reflexivity|]. split.
  - apply (proj1 (search_needs_a_page unentered (start s tt)) eq_refl "q" false "a.png").
  - split; [reflexivity|]. split; [reflexivity|].
    apply (proj2 (search_needs_a_page lost f) tt target_error 0%nat eq_refl eq_refl
             "q" false "a.png").
Defined.

(** X6 on a healthy site. *)
Lemma search_closes_its_page_witness :
  let s := healthy [item "t" "c" "/p/0"] in
  _browser (scraper s) = Some tt /\
  browser_new_page (driver s) tt 0%nat = (Ret 0%nat, 1%nat) /\
  (exists tr ok,
      trace (snd (search_by_text (scraper s) "q" false (start s tt)))
        = (tr ++ [EvCall (@CClose (driver s) 0%nat) ok])%list) /\
  (exists tr ok,
      trace (snd (search_by_image (scraper s) "a.png" (start s tt)))
        = (tr ++ [EvCall (@CClose (driver s) 0%nat) ok])%list).
Proof.
  intros s. split; [reflexivity|]. split; [reflexivity|].
  pose proof (search_closes_its_page (scraper s) tt (start s tt) 0%nat 1%nat
                eq_refl eq_refl) as [Htext Himage].
  split; [apply (Htext "q" false) | apply (Himage "a.png")].
Defined.

(** X8 on the page with seven items. *)
Lemma at_most_five_records_witness :
  let s := healthy seven_items in
  let run := search_by_text (scraper s) "q" false (start s tt) in
  run = (Ret (records (fst run)), snd run) /\
  (length (records (fst run)) <= 5)%nat.
Proof.
  intros s run.
  assert (Hrun : run = (Ret (records (fst run)), snd run)).
  { subst run s. computed_run. }
  split; [exact Hrun|].
  exact (proj1 (at_most_five_records (scraper s)) "q" false (start s tt) (snd run)
           (records (fst run)) Hrun).
Defined.

(** X9 on the page with seven items. *)
Lemma returned_records_shape_witness :
  let s := healthy seven_items in
  let run := search_by_text (scraper s) "q" false (start s tt) in
  run = (Ret (records (fst run)), snd run) /\
  Forall (fun r : record =>
            (dom r = summary_keys \/ dom r = summary_keys ∪ {["url"]}) /\
            detail_fields_unset r)
    (records (fst run)).
Proof.
  intros s run.
  assert (Hrun : run = (Ret (records (fst run)), snd run)).
  { subst run s. computed_run. }
  split; [exact Hrun|].
  exact (proj1 (returned_records_shape (scraper s)) "q" false (start s tt) (snd run)
           (records (fst run)) Hrun).
Defined.


(** X10 on a session that was entered and on a scraper that was not. *)
Lemma aexit_resets_the_scraper_witness :
  let s := healthy [] in
  let H := host true true true s in
  let sf := entered_frame H (fresh true true true s) tt tt 0%nat in
  let left := snd (__aexit__ H sf) in
  __aexit__ H sf = (Ret tt, left) /\
  _browser (this (object left)) = None /\
  _playwright (object left) = None /\
  __aexit__ H left = (Ret tt, left) /\
  object (fresh true true true s) = __init__ H true /\
  __aexit__ H (fresh true true true s) = (Ret tt, fresh true true true s).
Proof.
  intros s H sf left.
  assert (Hexit : __aexit__ H sf = (Ret tt, left)) by reflexivity.
  split; [exact Hexit|].
  split; [apply (proj1 (aexit_resets_the_scraper H sf) left Hexit)|].
  split; [apply (proj1 (aexit_resets_the_scraper H sf) left Hexit)|].
  split; [apply (proj1 (aexit_resets_the_scraper H sf) left Hexit)|].
  split; [reflexivity|].
  apply (proj2 (aexit_resets_the_scraper H (fresh true true true s)) true). reflexivity.
Defined.

(** X11 on a browser that does not close and on a Playwright that does not
    stop. *)
Lemma aexit_failure_keeps_the_fields_witness :
  let s := healthy [] in
  let H := host true false true s in
  let sf := entered_frame H (fresh true false true s) tt tt 0%nat in
  let H' := host true true false s in
  let sf' := entered_frame H' (fresh true true false s) tt tt 0%nat in
  _browser (this (object sf)) = Some tt /\
  browser_close H tt (host_world sf) = (Raise target_error, 0%nat) /\
  __aexit__ H sf =
    (Raise target_error,
     SessionFrame (object sf) 0%nat (host_log sf ++ [HvCall (@HBrowserClose _ H tt) false])) /\
  object (snd (__aexit__ H sf)) = object sf /\
  _browser (this (object sf')) = Some tt /\
  _playwright (object sf') = Some tt /\
  browser_close H' tt (host_world sf') = (Ret tt, 0%nat) /\
  playwright_stop H' tt 0%nat = (Raise target_error, 0%nat) /\
  __aexit__ H' sf' =
    (Raise target_error,
     SessionFrame (object sf') 0%nat
       (host_log sf' ++
          [HvCall (@HBrowserClose _ H' tt) true; HvPrint MsgBrowserClosed;
           HvCall (@HStop _ H' tt) false])).
Proof.
  intros s H sf H' sf'.
  split; [reflexivity|]. split; [reflexivity|]. split.
  { apply (proj1 (proj2 (aexit_failure_keeps_the_fields H sf)) tt target_error 0%nat);
      reflexivity. }
  split.
  { apply (proj1 (aexit_failure_keeps_the_fields H sf) target_error (snd (__aexit__ H sf))).
    reflexivity. }
  split; [reflexivity|]. split; [reflexivity|]. split; [reflexivity|].
  split; [reflexivity|].
  apply (proj2 (proj2 (aexit_failure_keeps_the_fields H' sf')) tt tt target_error
           0%nat 0%nat); reflexivity.
Defined.

(** X12 on a browser that does not launch. *)
Lemma failed_entry_skips_the_exit_witness :
  let s := healthy [] in
  let H := host false true true s in
  let sf := fresh false true true s in
  let body := run_method H (fun scraper => search_by_text scraper "q" false) in
  playwright_start H (host_world sf) = (Ret tt, 0%nat) /\
  chromium_launch H tt (headless (this (object sf))) 0%nat = (Raise target_error, 0%nat) /\
  async_with H body sf =
    (Raise target_error,
     @SessionFrame _ H {| this := this (object sf); _playwright := Some (tt : Playwright H) |}
       0%nat
       (host_log sf ++ [HvCall HStart true; HvCall (HLaunch true) false])).
Proof.
  intros s H sf body. split; [reflexivity|]. split; [reflexivity|].
  apply (proj2 (failed_entry_skips_the_exit H sf body) tt 0%nat target_error 0%nat);
    reflexivity.
Defined.

(** X13 on a body that returns at once. *)
Lemma session_brackets_the_body_witness :
  let s := healthy [] in
  let H := host true true true s in
  let sf := fresh true true true s in
  let sf1 := entered_frame H sf tt tt 0%nat in
  let body : Session H nat := sret H 7%nat in
  playwright_start H (host_world sf) = (Ret tt, 0%nat) /\
  chromium_launch H tt (headless (this (object sf))) 0%nat = (Ret tt, 0%nat) /\
  __aenter__ H sf = (Ret (object sf1), sf1) /\
  body sf1 = (Ret 7%nat, sf1) /\
  browser_close H tt (host_world sf1) = (Ret tt, 0%nat) /\
  playwright_stop H tt 0%nat = (Ret tt, 0%nat) /\
  async_with H body sf =
    (Ret 7%nat,
     SessionFrame (__init__ H true) 0%nat
       (host_log sf1 ++
          [HvCall (@HBrowserClose _ H tt) true; HvPrint MsgBrowserClosed;
           HvCall (@HStop _ H tt) true])).
Proof.
  intros s H sf sf1 body.
  pose proof (session_brackets_the_body H sf body tt 0%nat tt 0%nat eq_refl eq_refl)
    as [Henter Hwith].
  split; [reflexivity|]. split; [reflexivity|]. split; [exact Henter|].
  split; [reflexivity|]. split; [reflexivity|]. split; [reflexivity|].
  apply (Hwith (Ret 7%nat) sf1 0%nat 0%nat); reflexivity.
Defined.

(** X14 on a healthy site. *)
Lemma search_in_a_session_witness :
  let s := healthy [item "t" "c" "/p/0"] in
  let H := host true true true s in
  let sf := fresh true true true s in
  let sf1 := entered_frame H sf tt tt 0%nat in
  let m := fun scraper : AlibabaScraper (driver s) => search_by_text scraper "q" false in
  playwright_start H (host_world sf) = (Ret tt, 0%nat) /\
  chromium_launch H tt (headless (this (object sf))) 0%nat = (Ret tt, 0%nat) /\
  exists r w evs,
    run_method H m sf1
      = (r, SessionFrame (object sf1) w (host_log sf1 ++ map HvMethod evs)) /\
    pages_balanced evs /\
    forall w3 w4,
      browser_close H tt w = (Ret tt, w3) ->
      playwright_stop H tt w3 = (Ret tt, w4) ->
      let sf3 :=
        SessionFrame (__init__ H true) w4
          (host_log sf1 ++ map HvMethod evs ++
             [HvCall (@HBrowserClose _ H tt) true; HvPrint MsgBrowserClosed;
              HvCall (@HStop _ H tt) true]) in
      async_with H (run_method H m) sf = (r, sf3) /\
      run_method H m sf3
        = (Raise (RuntimeError
                    "Browser not initialized. Use 'async with AlibabaScraper() as scraper:'."),
           sf3).
Proof.
  intros s H sf sf1 m. split; [reflexivity|]. split; [reflexivity|].
  apply (proj1 (search_in_a_session H sf tt 0%nat tt 0%nat eq_refl eq_refl) "q" false).
Defined.

End MoreScenarios.
